(** * progress-buddy-backend: the persistence module [ProgressBuddyDB]

    A shallow embedding of [database.js] (class [ProgressBuddyDB]) together
    with the part of the storage engine (SQLite driven through
    better-sqlite3) that the statements it issues rely on: NOT NULL
    columns, AUTOINCREMENT row ids, foreign keys with ON DELETE CASCADE
    under [PRAGMA foreign_keys], and BEGIN / COMMIT / ROLLBACK.

    Conventions of the embedding.
    - A JS value that is [undefined] or [null] is [None]: the driver binds
      both as SQL NULL, and a NULL column reads back as [null].
    - JS numbers that hold integers are [Z] (exact inside the safe-integer
      range of a double).
    - CURRENT_TIMESTAMP is a clock reading [now : timestamp] handed to the
      statement that evaluates it; timestamps are seconds, as the engine's
      text format orders them.
    - An [async] method is the computation it performs; a rejected promise
      is the [Err] result.
    - A rowid table is a finite map from the INTEGER PRIMARY KEY to the
      other columns. *)

From stdpp Require Import gmap strings list sorting.
From Stdlib Require Import ZArith.

Local Open Scope Z_scope.

(** ** Data model *)

Definition timestamp := Z.

(** The object handed to [createActivity] and [updateActivity]. The Store
    reads eight properties of it; [completed] may be present on the object
    (it is a column of the table) but no method reads it. *)
Record activity := {
  name : option string;
  description : option string;
  specific : option string;
  measurable : option string;
  achievable : option string;
  relevant : option string;
  timebound : option string;
  buddy_email : option string;
  completed : option bool
}.

(** The object handed to [createLog]. *)
Record log := {
  log_activity_id : option Z;
  text : option string;
  metrics : option string
}.

(** The object handed to [createGoal]. *)
Record goal := {
  goal_activity_id : option Z;
  target_value : option Z;
  target_date : option string
}.

(** Rows, without the [id] column (the key of the table). A column that a
    statement binds from a parameter holds what the parameter can hold, so
    NOT NULL is a check of the engine and not a fact of the type. *)
Record activity_row := {
  a_name : option string;
  a_description : option string;
  a_specific : option string;
  a_measurable : option string;
  a_achievable : option string;
  a_relevant : option string;
  a_timebound : option string;
  a_buddy_email : option string;
  a_completed : Z;
  a_created_at : timestamp;
  a_updated_at : timestamp
}.

Record log_row := {
  l_activity_id : option Z;
  l_text : option string;
  l_metrics : option string;
  l_created_at : timestamp
}.

Record goal_row := {
  g_activity_id : option Z;
  g_target_value : option Z;
  g_current_value : Z;
  g_target_date : option string;
  g_achieved : Z;
  g_created_at : timestamp
}.

(** The database file: the three tables of [createTables] and the
    AUTOINCREMENT counters the engine keeps in [sqlite_sequence]. *)
Record tables := {
  activities : gmap Z activity_row;
  logs : gmap Z log_row;
  goals : gmap Z goal_row;
  seq_activities : Z;
  seq_logs : Z;
  seq_goals : Z
}.

Definition empty_tables : tables :=
  {| activities := ∅; logs := ∅; goals := ∅;
     seq_activities := 0; seq_logs := 0; seq_goals := 0 |}.

(** ** Results and failures *)

Inductive result (E A : Type) : Type :=
| Ok (a : A)
| Err (e : E).
Arguments Ok {E A} a.
Arguments Err {E A} e.

Inductive sqlite_code :=
| SQLITE_CONSTRAINT_NOTNULL
| SQLITE_CONSTRAINT_FOREIGNKEY
| SQLITE_ERROR
| SQLITE_CANTOPEN.

(** What a JS caller can catch: a [TypeError] of the runtime or of the
    driver's own checks, a [SqliteError] of the engine, or a value thrown by
    caller-supplied code. *)
Inductive error :=
| TypeError (msg : string)
| SqliteError (code : sqlite_code)
| Thrown (payload : string).

(** ** The engine: statements over [tables] *)

Module Sqlite.

(** What one execution of a mutating statement reports. *)
Record outcome := {
  inserted : option Z;
  changed : Z
}.

(** A prepared mutating statement with its parameters bound: run under the
    connection's foreign-key setting, it fails with a result code and
    leaves the tables as they were, or reports and yields the new tables. *)
Definition statement := bool → tables → result sqlite_code (outcome * tables).

Definition max_rowid {A} (t : gmap Z A) : Z :=
  foldr Z.max 0 (map_to_list t).*1.

(** AUTOINCREMENT: one more than the largest row id the table has ever
    held (the engine's 64-bit limit on row ids is not modelled). *)
Definition next_rowid {A} (seq : Z) (t : gmap Z A) : Z :=
  Z.max seq (max_rowid t) + 1.

Definition is_null {A} (v : option A) : bool :=
  match v with None => true | Some _ => false end.

(** INSERT INTO activities (name, description, specific, measurable,
    achievable, relevant, timebound, buddy_email) VALUES (?,?,?,?,?,?,?,?) *)
Definition insert_activity (a : activity) (now : timestamp) : statement :=
  λ _ t,
    if is_null (name a) || is_null (specific a)
       || is_null (measurable a) || is_null (timebound a)
    then Err SQLITE_CONSTRAINT_NOTNULL
    else
      let id := next_rowid (seq_activities t) (activities t) in
      let row := {| a_name := name a; a_description := description a;
                    a_specific := specific a; a_measurable := measurable a;
                    a_achievable := achievable a; a_relevant := relevant a;
                    a_timebound := timebound a;
                    a_buddy_email := buddy_email a;
                    a_completed := 0;
                    a_created_at := now; a_updated_at := now |} in
      Ok ({| inserted := Some id; changed := 1 |},
          {| activities := <[id := row]> (activities t);
             logs := logs t; goals := goals t;
             seq_activities := id;
             seq_logs := seq_logs t; seq_goals := seq_goals t |}).

(** UPDATE activities SET name = ?, description = ?, specific = ?,
    measurable = ?, achievable = ?, relevant = ?, timebound = ?,
    buddy_email = ?, updated_at = CURRENT_TIMESTAMP WHERE id = ? *)
Definition update_activity (a : activity) (now : timestamp) (id : Z)
  : statement :=
  λ _ t,
    match activities t !! id with
    | None => Ok ({| inserted := None; changed := 0 |}, t)
    | Some old =>
        if is_null (name a) || is_null (specific a)
           || is_null (measurable a) || is_null (timebound a)
        then Err SQLITE_CONSTRAINT_NOTNULL
        else
          let row := {| a_name := name a; a_description := description a;
                        a_specific := specific a;
                        a_measurable := measurable a;
                        a_achievable := achievable a;
                        a_relevant := relevant a;
                        a_timebound := timebound a;
                        a_buddy_email := buddy_email a;
                        a_completed := a_completed old;
                        a_created_at := a_created_at old;
                        a_updated_at := now |} in
          Ok ({| inserted := None; changed := 1 |},
              {| activities := <[id := row]> (activities t);
                 logs := logs t; goals := goals t;
                 seq_activities := seq_activities t;
                 seq_logs := seq_logs t; seq_goals := seq_goals t |})
    end.

(** DELETE FROM activities WHERE id = ?, with the ON DELETE CASCADE
    actions of [logs] and [goals], which the engine performs only while
    foreign keys are enabled. [changed] counts the activity row alone. *)
Definition delete_activity (id : Z) : statement :=
  λ fk t,
    match activities t !! id with
    | None => Ok ({| inserted := None; changed := 0 |}, t)
    | Some _ =>
        Ok ({| inserted := None; changed := 1 |},
            {| activities := delete id (activities t);
               logs := if fk
                       then filter (λ kv, l_activity_id kv.2 ≠ Some id)
                                   (logs t)
                       else logs t;
               goals := if fk
                        then filter (λ kv, g_activity_id kv.2 ≠ Some id)
                                    (goals t)
                        else goals t;
               seq_activities := seq_activities t;
               seq_logs := seq_logs t; seq_goals := seq_goals t |})
    end.

(** The parent-key lookup of FOREIGN KEY (activity_id) REFERENCES
    activities (id). *)
Definition references_activity (t : tables) (aid : Z) : bool :=
  bool_decide (is_Some (activities t !! aid)).

(** INSERT INTO logs (activity_id, text, metrics) VALUES (?, ?, ?) *)
Definition insert_log (l : log) (now : timestamp) : statement :=
  λ fk t,
    match log_activity_id l, text l with
    | Some aid, Some _ =>
        if fk && negb (references_activity t aid)
        then Err SQLITE_CONSTRAINT_FOREIGNKEY
        else
          let id := next_rowid (seq_logs t) (logs t) in
          let row := {| l_activity_id := log_activity_id l;
                        l_text := text l; l_metrics := metrics l;
                        l_created_at := now |} in
          Ok ({| inserted := Some id; changed := 1 |},
              {| activities := activities t;
                 logs := <[id := row]> (logs t); goals := goals t;
                 seq_activities := seq_activities t;
                 seq_logs := id; seq_goals := seq_goals t |})
    | _, _ => Err SQLITE_CONSTRAINT_NOTNULL
    end.

(** INSERT INTO goals (activity_id, target_value, target_date)
    VALUES (?, ?, ?) *)
Definition insert_goal (g : goal) (now : timestamp) : statement :=
  λ fk t,
    match goal_activity_id g, target_value g with
    | Some aid, Some _ =>
        if fk && negb (references_activity t aid)
        then Err SQLITE_CONSTRAINT_FOREIGNKEY
        else
          let id := next_rowid (seq_goals t) (goals t) in
          let row := {| g_activity_id := goal_activity_id g;
                        g_target_value := target_value g;
                        g_current_value := 0;
                        g_target_date := target_date g;
                        g_achieved := 0;
                        g_created_at := now |} in
          Ok ({| inserted := Some id; changed := 1 |},
              {| activities := activities t; logs := logs t;
                 goals := <[id := row]> (goals t);
                 seq_activities := seq_activities t;
                 seq_logs := seq_logs t; seq_goals := id |})
    | _, _ => Err SQLITE_CONSTRAINT_NOTNULL
    end.

(** UPDATE goals SET current_value = ?, achieved = ? WHERE id = ? *)
Definition update_goal (current achieved : Z) (id : Z) : statement :=
  λ _ t,
    match goals t !! id with
    | None => Ok ({| inserted := None; changed := 0 |}, t)
    | Some old =>
        let row := {| g_activity_id := g_activity_id old;
                      g_target_value := g_target_value old;
                      g_current_value := current;
                      g_target_date := g_target_date old;
                      g_achieved := achieved;
                      g_created_at := g_created_at old |} in
        Ok ({| inserted := None; changed := 1 |},
            {| activities := activities t; logs := logs t;
               goals := <[id := row]> (goals t);
               seq_activities := seq_activities t;
               seq_logs := seq_logs t; seq_goals := seq_goals t |})
    end.

(** ORDER BY created_at DESC. Rows with equal [created_at] come in an
    order SQL leaves open; nothing below depends on it. *)
Definition newer_first {A} (created : A → timestamp) (r1 r2 : Z * A) : Prop :=
  created r2.2 ≤ created r1.2.

Global Instance newer_first_dec {A} (created : A → timestamp) r1 r2 :
  Decision (newer_first created r1 r2).
Proof. unfold newer_first. apply _. Defined.

Definition order_by_created_at_desc {A} (created : A → timestamp)
  (rows : list (Z * A)) : list (Z * A) :=
  merge_sort (newer_first created) rows.

(** SELECT * FROM activities ORDER BY created_at DESC *)
Definition select_activities (t : tables) : list (Z * activity_row) :=
  order_by_created_at_desc a_created_at (map_to_list (activities t)).

(** SELECT * FROM logs WHERE activity_id = ? ORDER BY created_at DESC *)
Definition select_logs (activityId : Z) (t : tables) : list (Z * log_row) :=
  order_by_created_at_desc l_created_at
    (map_to_list (filter (λ kv, l_activity_id kv.2 = Some activityId)
                         (logs t))).

(** SELECT * FROM goals WHERE activity_id = ? ORDER BY created_at DESC *)
Definition select_goals (activityId : Z) (t : tables) : list (Z * goal_row) :=
  order_by_created_at_desc g_created_at
    (map_to_list (filter (λ kv, g_activity_id kv.2 = Some activityId)
                         (goals t))).

(** SELECT target_value FROM goals WHERE id = ? : the row, when there is
    one, is the object whose one property is [target_value]. *)
Definition select_target_value (goalId : Z) (t : tables)
  : option (option Z) :=
  g_target_value <$> goals t !! goalId.

End Sqlite.

(** ** Computations: state passing with failures

    A method is a function from the state it runs in to its result and the
    state it leaves; [throw] and [try_catch] are the JS [throw] and
    [try { } catch (error) { }]. *)

Definition comp (S A : Type) : Type := S → result error A * S.

Definition ret {S A} (a : A) : comp S A := λ s, (Ok a, s).

Definition throw {S A} (e : error) : comp S A := λ s, (Err e, s).

Definition bind {S A B} (m : comp S A) (k : A → comp S B) : comp S B :=
  λ s, match m s with
       | (Ok a, s') => k a s'
       | (Err e, s') => (Err e, s')
       end.

Definition try_catch {S A} (body : comp S A) (handler : error → comp S A)
  : comp S A :=
  λ s, match body s with
       | (Ok a, s') => (Ok a, s')
       | (Err e, s') => handler e s'
       end.

Notation "'let*' x ':=' m 'in' k" := (bind m (λ x, k))
  (at level 10, x pattern, m at level 100, k at level 200).
Notation "m ';;' k" := (bind m (λ _, k))
  (at level 100, k at level 200, right associativity).

(** ** The driver: a better-sqlite3 [Database] connection *)

(** [txn] is the content to restore on ROLLBACK while a transaction is
    open; [last_insert_rowid] is the connection's, which no rollback
    restores. *)
Record Database := {
  open : bool;
  foreign_keys : bool;
  data : tables;
  txn : option tables;
  last_insert_rowid : Z
}.

(** The statements the Store hands to [db.exec]. *)
Inductive script :=
| CREATE_TABLE_IF_NOT_EXISTS
| BEGIN_TRANSACTION
| COMMIT
| ROLLBACK.

(** The object [run] returns: [{ id: result.lastInsertRowid, changes:
    result.changes }]. *)
Record run_result := {
  id : Z;
  changes : Z
}.

Definition not_open : error := TypeError "The database connection is not open".

(** [new Database(dbPath)] on a file holding [file]; a file that cannot be
    opened or created is [None]. A new connection has foreign keys off. *)
Definition new_Database (file : option tables) : result error Database :=
  match file with
  | Some t => Ok {| open := true; foreign_keys := false; data := t;
                    txn := None; last_insert_rowid := 0 |}
  | None => Err (SqliteError SQLITE_CANTOPEN)
  end.

(** [db.prepare(sql)]: the statement, when the connection is open. *)
Definition prepare {Q} (sql : Q) : comp Database Q :=
  λ d, if open d then (Ok sql, d) else (Err not_open, d).

(** [stmt.run(...params)] *)
Definition stmt_run (st : Sqlite.statement) : comp Database run_result :=
  λ d,
    if open d then
      match st (foreign_keys d) (data d) with
      | Err c => (Err (SqliteError c), d)
      | Ok (o, t') =>
          let rowid := default (last_insert_rowid d) (Sqlite.inserted o) in
          (Ok {| id := rowid; changes := Sqlite.changed o |},
           {| open := open d; foreign_keys := foreign_keys d; data := t';
              txn := txn d; last_insert_rowid := rowid |})
      end
    else (Err not_open, d).

(** [stmt.get(...params)] and [stmt.all(...params)]: a read of the tables. *)
Definition stmt_read {A} (q : tables → A) : comp Database A :=
  λ d, if open d then (Ok (q (data d)), d) else (Err not_open, d).

(** [db.exec(sql)]. The three tables exist in every [tables], so CREATE
    TABLE IF NOT EXISTS finds them. *)
Definition exec (sql : script) : comp Database unit :=
  λ d,
    if open d then
      match sql with
      | CREATE_TABLE_IF_NOT_EXISTS => (Ok (), d)
      | BEGIN_TRANSACTION =>
          match txn d with
          | Some _ => (Err (SqliteError SQLITE_ERROR), d)
          | None =>
              (Ok (), {| open := open d; foreign_keys := foreign_keys d;
                         data := data d; txn := Some (data d);
                         last_insert_rowid := last_insert_rowid d |})
          end
      | COMMIT =>
          match txn d with
          | None => (Err (SqliteError SQLITE_ERROR), d)
          | Some _ =>
              (Ok (), {| open := open d; foreign_keys := foreign_keys d;
                         data := data d; txn := None;
                         last_insert_rowid := last_insert_rowid d |})
          end
      | ROLLBACK =>
          match txn d with
          | None => (Err (SqliteError SQLITE_ERROR), d)
          | Some saved =>
              (Ok (), {| open := open d; foreign_keys := foreign_keys d;
                         data := saved; txn := None;
                         last_insert_rowid := last_insert_rowid d |})
          end
      end
    else (Err not_open, d).

(** [db.pragma('foreign_keys = ON')]: without effect inside a transaction. *)
Definition pragma_foreign_keys_ON : comp Database unit :=
  λ d,
    if open d then
      (Ok (), {| open := open d;
                 foreign_keys := match txn d with
                                 | Some _ => foreign_keys d
                                 | None => true
                                 end;
                 data := data d; txn := txn d;
                 last_insert_rowid := last_insert_rowid d |})
    else (Err not_open, d).

(** [db.close()]: an open transaction is rolled back; closing twice is
    allowed. *)
Definition Database_close : comp Database unit :=
  λ d, (Ok (), {| open := false; foreign_keys := foreign_keys d;
                  data := default (data d) (txn d); txn := None;
                  last_insert_rowid := last_insert_rowid d |}).

(** ** The Store: class [ProgressBuddyDB] *)

Inductive console_line :=
| console_log (msg : string)
| console_error (msg : string) (e : error).

(** The object's one field, [this.db], and the console it writes to. *)
Record ProgressBuddyDB := {
  db : option Database;
  console : list console_line
}.

(** [constructor() { this.db = null; }] *)
Definition constructor : ProgressBuddyDB := {| db := None; console := [] |}.

Definition print (line : console_line) : comp ProgressBuddyDB unit :=
  λ s, (Ok (), {| db := db s; console := console s ++ [line] |}).

Definition null_db : error := TypeError "Cannot read properties of null".

(** A call [this.db.method(...)]. *)
Definition this_db {A} (method : comp Database A) : comp ProgressBuddyDB A :=
  λ s, match db s with
       | None => (Err null_db, s)
       | Some d => let '(r, d') := method d in
                   (r, {| db := Some d'; console := console s |})
       end.

(** [this.db = new Database(dbPath)] *)
Definition set_db (file : option tables) : comp ProgressBuddyDB unit :=
  λ s, match new_Database file with
       | Ok d => (Ok (), {| db := Some d; console := console s |})
       | Err e => (Err e, s)
       end.

Definition createTables : comp ProgressBuddyDB bool :=
  try_catch
    (this_db pragma_foreign_keys_ON;;
     this_db (exec CREATE_TABLE_IF_NOT_EXISTS);;
     this_db (exec CREATE_TABLE_IF_NOT_EXISTS);;
     this_db (exec CREATE_TABLE_IF_NOT_EXISTS);;
     print (console_log "✅ Database tables created/verified");;
     ret true)
    (λ error, print (console_error "Error creating tables:" error);;
              throw error).

(** [init()], on the database file found at the resolved path. *)
Definition init (file : option tables) : comp ProgressBuddyDB bool :=
  try_catch
    (set_db file;;
     print (console_log "✅ Connected to SQLite database");;
     createTables;;
     ret true)
    (λ error, print (console_error "Error opening database:" error);;
              throw error).

Definition get {A} (sql : tables → option A)
  : comp ProgressBuddyDB (option A) :=
  try_catch
    (let* stmt := this_db (prepare sql) in
     this_db (stmt_read stmt))
    (λ error, print (console_error "Error in get query:" error);;
              throw error).

Definition all {A} (sql : tables → list A) : comp ProgressBuddyDB (list A) :=
  try_catch
    (let* stmt := this_db (prepare sql) in
     this_db (stmt_read stmt))
    (λ error, print (console_error "Error in all query:" error);;
              throw error).

Definition run (sql : Sqlite.statement) : comp ProgressBuddyDB run_result :=
  try_catch
    (let* stmt := this_db (prepare sql) in
     this_db (stmt_run stmt))
    (λ error, print (console_error "Error in run query:" error);;
              throw error).

Definition transaction {A} (callback : comp ProgressBuddyDB A)
  : comp ProgressBuddyDB A :=
  try_catch
    (this_db (exec BEGIN_TRANSACTION);;
     let* result := callback in
     this_db (exec COMMIT);;
     ret result)
    (λ error, this_db (exec ROLLBACK);;
              throw error).

Definition close : comp ProgressBuddyDB unit :=
  try_catch
    (λ s, match db s with
          | Some _ =>
              (this_db Database_close;;
               print (console_log "✅ Database connection closed")) s
          | None => (Ok (), s)
          end)
    (λ error, print (console_error "Error closing database:" error);;
              throw error).

Definition getAllActivities : comp ProgressBuddyDB (list (Z * activity_row)) :=
  all Sqlite.select_activities.

Definition createActivity (a : activity) (now : timestamp)
  : comp ProgressBuddyDB run_result :=
  run (Sqlite.insert_activity a now).

Definition updateActivity (id : Z) (a : activity) (now : timestamp)
  : comp ProgressBuddyDB run_result :=
  run (Sqlite.update_activity a now id).

Definition deleteActivity (id : Z) : comp ProgressBuddyDB run_result :=
  run (Sqlite.delete_activity id).

Definition getLogsByActivity (activityId : Z)
  : comp ProgressBuddyDB (list (Z * log_row)) :=
  all (Sqlite.select_logs activityId).

Definition createLog (l : log) (now : timestamp)
  : comp ProgressBuddyDB run_result :=
  run (Sqlite.insert_log l now).

Definition getGoalsByActivity (activityId : Z)
  : comp ProgressBuddyDB (list (Z * goal_row)) :=
  all (Sqlite.select_goals activityId).

Definition createGoal (g : goal) (now : timestamp)
  : comp ProgressBuddyDB run_result :=
  run (Sqlite.insert_goal g now).

(** [row.target_value]: reading a property of [undefined] is a TypeError. *)
Definition prop_target_value (row : option (option Z))
  : comp ProgressBuddyDB (option Z) :=
  match row with
  | Some v => ret v
  | None => throw (TypeError "Cannot read properties of undefined")
  end.

(** [currentValue >= target_value] on numbers; [null] compares as 0. *)
Definition js_ge (currentValue : Z) (target : option Z) : bool :=
  bool_decide (default 0 target ≤ currentValue).

Definition updateGoalProgress (goalId : Z) (currentValue : Z)
  : comp ProgressBuddyDB run_result :=
  let* row := get (Sqlite.select_target_value goalId) in
  let* target := prop_target_value row in
  let achieved := js_ge currentValue target in
  run (Sqlite.update_goal currentValue (if achieved then 1 else 0) goalId).

(** ** What is stored *)

(** The tables a Store holds, when it has a connection. *)
Definition stored (s : ProgressBuddyDB) : option tables := data <$> db s.

(** A unit of work that leaves the connection and its transaction alone:
    it neither closes or replaces [this.db] nor begins, commits or rolls
    back. The primitives [get], [all] and [run] on data statements are such,
    and so are the entity methods built from them. *)
Definition keeps_transaction {A} (work : comp ProgressBuddyDB A) : Prop :=
  ∀ s d r s', db s = Some d → work s = (r, s') →
    ∃ d', db s' = Some d' ∧ open d' = open d ∧ txn d' = txn d.

(** The state in which [transaction] invokes its callback: [s] after
    BEGIN TRANSACTION. *)
Definition begun (s : ProgressBuddyDB) (d : Database) : ProgressBuddyDB :=
  {| db := Some {| open := open d; foreign_keys := foreign_keys d;
                   data := data d; txn := Some (data d);
                   last_insert_rowid := last_insert_rowid d |};
     console := console s |}.

(** The NOT NULL columns of [activities] hold a value. *)
Definition required_present (r : activity_row) : Prop :=
  is_Some (a_name r) ∧ is_Some (a_specific r)
  ∧ is_Some (a_measurable r) ∧ is_Some (a_timebound r).

Definition activities_wf (t : tables) : Prop :=
  map_Forall (λ _ r, required_present r) (activities t).

(** Every activity the connection can still see, now or after a
    ROLLBACK. *)
Definition db_wf (d : Database) : Prop :=
  activities_wf (data d) ∧ ∀ saved, txn d = Some saved → activities_wf saved.

(** A property of the connection, for a Store that has one. *)
Definition holds (J : Database → Prop) (s : ProgressBuddyDB) : Prop :=
  ∀ d, db s = Some d → J d.

Definition store_wf (s : ProgressBuddyDB) : Prop := holds db_wf s.

(** The connection enforces foreign keys. *)
Definition enforcing (d : Database) : Prop := foreign_keys d = true.

(** A computation that keeps a property of the Store, however it ends. *)
Definition preserves {A} (I : ProgressBuddyDB → Prop)
  (m : comp ProgressBuddyDB A) : Prop :=
  ∀ s r s', I s → m s = (r, s') → I s'.

(** A statement that keeps the NOT NULL columns of [activities] filled. *)
Definition statement_wf (sql : Sqlite.statement) : Prop :=
  ∀ fk t o t', activities_wf t → sql fk t = Ok (o, t') → activities_wf t'.

(** A text field that is present and not the empty string. *)
Definition nonempty (v : option string) : Prop :=
  ∃ str, v = Some str ∧ str ≠ EmptyString.

Definition required_nonempty (r : activity_row) : Prop :=
  nonempty (a_name r) ∧ nonempty (a_specific r)
  ∧ nonempty (a_measurable r) ∧ nonempty (a_timebound r).

(** The 0/1 a BOOLEAN column stores. *)
Definition as_integer (b : bool) : Z := if b then 1 else 0.

(** ** Sequences of operations on a Store *)

Inductive call :=
| CreateActivity (a : activity) (now : timestamp)
| UpdateActivity (id : Z) (a : activity) (now : timestamp)
| DeleteActivity (id : Z)
| CreateLog (l : log) (now : timestamp)
| CreateGoal (g : goal) (now : timestamp)
| UpdateGoalProgress (goalId : Z) (currentValue : Z)
| GetAllActivities
| GetLogsByActivity (activityId : Z)
| GetGoalsByActivity (activityId : Z).

Definition perform (c : call) : comp ProgressBuddyDB unit :=
  match c with
  | CreateActivity a now => createActivity a now;; ret ()
  | UpdateActivity id a now => updateActivity id a now;; ret ()
  | DeleteActivity id => deleteActivity id;; ret ()
  | CreateLog l now => createLog l now;; ret ()
  | CreateGoal g now => createGoal g now;; ret ()
  | UpdateGoalProgress goalId v => updateGoalProgress goalId v;; ret ()
  | GetAllActivities => getAllActivities;; ret ()
  | GetLogsByActivity activityId => getLogsByActivity activityId;; ret ()
  | GetGoalsByActivity activityId => getGoalsByActivity activityId;; ret ()
  end.

(** A unit of work over the statements of the entity methods: issued in
    order through the primitives, so the first failure ends it; after them
    it may raise a failure of its own. *)
Fixpoint perform_all (cs : list call) : comp ProgressBuddyDB unit :=
  match cs with
  | [] => ret ()
  | c :: cs' => perform c;; perform_all cs'
  end.

Definition unit_of_work (body : list call) (raise : option error)
  : comp ProgressBuddyDB unit :=
  perform_all body;;
  match raise with
  | Some e => throw e
  | None => ret ()
  end.

Inductive operation :=
| Init (file : option tables)
| Call (c : call)
| Transaction (body : list call) (raise : option error)
| Close.

Definition step (s : ProgressBuddyDB) (op : operation) : ProgressBuddyDB :=
  match op with
  | Init file => (init file s).2
  | Call c => (perform c s).2
  | Transaction body raise => (transaction (unit_of_work body raise) s).2
  | Close => (close s).2
  end.

Definition steps (ops : list operation) (s : ProgressBuddyDB)
  : ProgressBuddyDB :=
  foldl step s ops.

(** A database file that [init] opens was written under the schema. *)
Definition opens_wf (op : operation) : Prop :=
  match op with
  | Init (Some t) => activities_wf t
  | _ => True
  end.

(** ** Sample data *)

Definition run_5k : activity :=
  {| name := Some "Run 5k"; description := None; specific := Some "Run";
     measurable := Some "5km"; achievable := None; relevant := None;
     timebound := Some "30 days"; buddy_email := None; completed := None |}.

(** The row [run_5k] becomes when created at time 100. *)
Definition run_5k_row : activity_row :=
  {| a_name := Some "Run 5k"; a_description := None;
     a_specific := Some "Run"; a_measurable := Some "5km";
     a_achievable := None; a_relevant := None;
     a_timebound := Some "30 days"; a_buddy_email := None;
     a_completed := 0; a_created_at := 100; a_updated_at := 100 |}.

Definition fresh : ProgressBuddyDB := (init (Some empty_tables) constructor).2.

(** A Store holding activity 1 with one log and one goal of target 10. *)
Definition sample : ProgressBuddyDB :=
  steps [ Call (CreateActivity run_5k 100);
          Call (CreateLog {| log_activity_id := Some 1;
                             text := Some "first run"; metrics := None |} 101);
          Call (CreateGoal {| goal_activity_id := Some 1;
                              target_value := Some 10;
                              target_date := None |} 102) ]
        fresh.

(** The operations that lead from a new Store to [sample], followed by a
    progress update, a unit of work that fails after two writes, and the
    deletion of a second activity. *)
Definition sample_history : list operation :=
  [ Init (Some empty_tables);
    Call (CreateActivity run_5k 100);
    Call (CreateLog {| log_activity_id := Some 1;
                       text := Some "first run"; metrics := None |} 101);
    Call (CreateGoal {| goal_activity_id := Some 1;
                        target_value := Some 10;
                        target_date := None |} 102);
    Call (UpdateGoalProgress 1 12);
    Transaction
      [ CreateActivity run_5k 103;
        CreateLog {| log_activity_id := Some 2;
                     text := Some "in a transaction"; metrics := None |} 104 ]
      (Some (Thrown "boom"));
    Call (CreateActivity run_5k 105);
    Call (CreateGoal {| goal_activity_id := Some 2;
                        target_value := Some 3;
                        target_date := None |} 106);
    Call (DeleteActivity 2) ].

Definition sample_db : Database := default
  {| open := false; foreign_keys := false; data := empty_tables;
     txn := None; last_insert_rowid := 0 |} (db sample).

(** ** Further notions: unusable connections, views, ownership *)

(** The failure every driver call meets when the Store has no connection
    ([this.db] is [null]) or a closed one. *)
Definition connection_error (s : ProgressBuddyDB) : option error :=
  match db s with
  | None => Some null_db
  | Some d => if open d then None else Some not_open
  end.

(** [s] after one [console.error(msg, e)]. *)
Definition logged (s : ProgressBuddyDB) (msg : string) (e : error)
  : ProgressBuddyDB :=
  {| db := db s; console := console s ++ [console_error msg e] |}.

(** A property of the tables that holds of what the connection shows now
    and of what a ROLLBACK would bring back. *)
Definition in_every_view (P : tables → Prop) (d : Database) : Prop :=
  P (data d) ∧ ∀ saved, txn d = Some saved → P saved.

(** The database files an operation opens satisfy [P]. *)
Definition opens_with (P : tables → Prop) (op : operation) : Prop :=
  match op with
  | Init (Some t) => P t
  | _ => True
  end.

(** Every log and every goal belongs to an activity that is stored. *)
Definition log_owned (t : tables) (l : log_row) : Prop :=
  ∃ aid, l_activity_id l = Some aid ∧ is_Some (activities t !! aid).

Definition goal_owned (t : tables) (g : goal_row) : Prop :=
  ∃ aid, g_activity_id g = Some aid ∧ is_Some (activities t !! aid).

Definition no_orphans (t : tables) : Prop :=
  map_Forall (λ _ l, log_owned t l) (logs t)
  ∧ map_Forall (λ _ g, goal_owned t g) (goals t).

Definition db_owned (d : Database) : Prop :=
  enforcing d ∧ in_every_view no_orphans d.

(** The NOT NULL columns of [logs] and [goals] hold a value. *)
Definition children_present (t : tables) : Prop :=
  map_Forall (λ _ l, is_Some (l_activity_id l) ∧ is_Some (l_text l)) (logs t)
  ∧ map_Forall (λ _ g, is_Some (g_activity_id g) ∧ is_Some (g_target_value g))
               (goals t).

(** [achieved] agrees with the comparison of [current_value] against a
    positive target. *)
Definition goal_consistent (g : goal_row) : Prop :=
  ∀ t, g_target_value g = Some t → 0 < t →
       g_achieved g = as_integer (bool_decide (t ≤ g_current_value g)).

Definition goals_consistent (t : tables) : Prop :=
  map_Forall (λ _ g, goal_consistent g) (goals t).

(** The text fields [createActivity] needs are present. *)
Definition valid_activity (a : activity) : Prop :=
  is_Some (name a) ∧ is_Some (specific a)
  ∧ is_Some (measurable a) ∧ is_Some (timebound a).

(** ** server.js: graceful shutdown *)

(** The SIGINT handler; the number it returns is the code it hands to
    [process.exit]. *)
Definition on_SIGINT : comp ProgressBuddyDB Z :=
  print (console_log "🛑 Shutting down server gracefully...");;
  try_catch
    (close;;
     print (console_log "✅ Database connection closed");;
     ret 0)
    (λ error, print (console_error "Error during shutdown:" error);;
              ret 1).

(** ** The generic primitives on an open connection *)

Section primitives.
Variables (s : ProgressBuddyDB) (d : Database).
Hypothesis Hdb : db s = Some d.
Hypothesis Hopen : open d = true.

Lemma this_db_prepare {Q} (sql : Q) :
  this_db (prepare sql) s = (Ok sql, s).
Proof.
  unfold this_db, prepare. rewrite Hdb, Hopen.
  destruct s; simpl in *; by subst.
Qed.

Lemma get_open {A} (sql : tables → option A) :
  get sql s = (Ok (sql (data d)), s).
Proof.
  unfold get, try_catch, bind. rewrite this_db_prepare.
  unfold this_db, stmt_read. rewrite Hdb, Hopen.
  destruct s; simpl in *; by subst.
Qed.

Lemma all_open {A} (sql : tables → list A) :
  all sql s = (Ok (sql (data d)), s).
Proof.
  unfold all, try_catch, bind. rewrite this_db_prepare.
  unfold this_db, stmt_read. rewrite Hdb, Hopen.
  destruct s; simpl in *; by subst.
Qed.

Lemma run_open_Ok (sql : Sqlite.statement) o t' :
  sql (foreign_keys d) (data d) = Ok (o, t') →
  run sql s =
    (Ok {| id := default (last_insert_rowid d) (Sqlite.inserted o);
           changes := Sqlite.changed o |},
     {| db := Some {| open := true; foreign_keys := foreign_keys d;
                      data := t'; txn := txn d;
                      last_insert_rowid :=
                        default (last_insert_rowid d) (Sqlite.inserted o) |};
        console := console s |}).
Proof.
  intros Hsql. unfold run, try_catch, bind. rewrite this_db_prepare.
  unfold this_db, stmt_run. rewrite Hdb, Hopen, Hsql. done.
Qed.

Lemma run_open_Err (sql : Sqlite.statement) c :
  sql (foreign_keys d) (data d) = Err c →
  run sql s =
    (Err (SqliteError c),
     {| db := Some d;
        console := console s
                   ++ [console_error "Error in run query:" (SqliteError c)] |}).
Proof.
  intros Hsql. unfold run, try_catch, bind. rewrite this_db_prepare.
  unfold this_db, stmt_run. rewrite Hdb, Hopen, Hsql. done.
Qed.

(** A statement that changes nothing leaves the whole Store as it was. *)
Lemma run_open_same (sql : Sqlite.statement) n :
  sql (foreign_keys d) (data d)
    = Ok ({| Sqlite.inserted := None; Sqlite.changed := n |}, data d) →
  run sql s = (Ok {| id := last_insert_rowid d; changes := n |}, s).
Proof.
  intros Hsql. rewrite (run_open_Ok _ _ _ Hsql). simpl.
  destruct s as [sdb sc], d as [o f dd tx li]; simpl in *; by subst.
Qed.

End primitives.

(** ** [close] *)

(** C10. [close()] on a Store that was never initialised, whose [this.db]
    is still [null], returns normally and changes nothing: neither the
    Store's field nor the console. *)
Theorem close_uninitialised_noop (out : list console_line) :
  close {| db := None; console := out |}
  = (Ok (), {| db := None; console := out |})
  ∧ close constructor = (Ok (), constructor).
Proof. split; reflexivity. Qed.

(** ** [deleteActivity] on an absent id *)

(** C9. When no activity has the given id, [deleteActivity] does not fail:
    it returns an affected-row count of 0 and leaves the Store, hence every
    table, as it was. *)
Theorem deleteActivity_absent (s : ProgressBuddyDB) (d : Database) (id : Z) :
  db s = Some d → open d = true →
  activities (data d) !! id = None →
  ∃ r, deleteActivity id s = (Ok r, s) ∧ changes r = 0.
Proof.
  intros Hdb Hopen Hnone.
  exists {| id := last_insert_rowid d; changes := 0 |}. split; [|done].
  apply (run_open_same s d Hdb Hopen).
  unfold Sqlite.delete_activity. by rewrite Hnone.
Qed.

Lemma deleteActivity_absent_witness :
  ∃ r, deleteActivity 7 sample = (Ok r, sample) ∧ changes r = 0.
Proof.
  apply (deleteActivity_absent sample sample_db 7); by vm_compute.
Defined.

(** ** [updateGoalProgress] *)

(** C3. When no goal has the given id, the read step returns no row and
    [updateGoalProgress] fails on reading [target_value] of the absent row
    (the failure the specification names NotFoundError; the JS runtime
    raises it as a TypeError). No write is issued: the Store, hence the
    goals table, is as it was. *)
Theorem updateGoalProgress_absent
  (s : ProgressBuddyDB) (d : Database) (goalId v : Z) :
  db s = Some d → open d = true →
  goals (data d) !! goalId = None →
  updateGoalProgress goalId v s
  = (Err (TypeError "Cannot read properties of undefined"), s)
  ∧ get (Sqlite.select_target_value goalId) s = (Ok None, s).
Proof.
  intros Hdb Hopen Hnone.
  assert (Hget : get (Sqlite.select_target_value goalId) s = (Ok None, s)).
  { rewrite (get_open s d Hdb Hopen).
    unfold Sqlite.select_target_value. by rewrite Hnone. }
  split; [|done].
  unfold updateGoalProgress, bind. by rewrite Hget.
Qed.

Lemma updateGoalProgress_absent_witness :
  updateGoalProgress 5 10 sample
  = (Err (TypeError "Cannot read properties of undefined"), sample)
  ∧ get (Sqlite.select_target_value 5) sample = (Ok None, sample).
Proof.
  apply (updateGoalProgress_absent sample sample_db 5 10); by vm_compute.
Defined.

(** C1. For an existing goal with target value [t], [updateGoalProgress
    goalId v] completes normally and the stored goal then has
    [current_value = v] and [achieved] set exactly when [v >= t] (stored as
    1, and as 0 otherwise), for every integer [v]; the target is kept. *)
Theorem updateGoalProgress_achieved
  (s : ProgressBuddyDB) (d : Database) (goalId v t : Z) (g : goal_row) :
  db s = Some d → open d = true →
  goals (data d) !! goalId = Some g →
  g_target_value g = Some t →
  ∃ r s' t' g',
    updateGoalProgress goalId v s = (Ok r, s')
    ∧ stored s' = Some t'
    ∧ goals t' !! goalId = Some g'
    ∧ g_current_value g' = v
    ∧ g_achieved g' = as_integer (bool_decide (t ≤ v))
    ∧ (g_achieved g' = 1 ↔ t ≤ v)
    ∧ g_target_value g' = Some t.
Proof.
  intros Hdb Hopen Hg Ht.
  unfold updateGoalProgress, bind.
  rewrite (get_open s d Hdb Hopen).
  unfold Sqlite.select_target_value. rewrite Hg. simpl.
  erewrite (run_open_Ok s d Hdb Hopen); last first.
  { unfold Sqlite.update_goal. rewrite Hg. reflexivity. }
  do 4 eexists. split; [reflexivity|].
  split; [reflexivity|]. simpl.
  split; [apply lookup_insert_eq|]. simpl.
  rewrite Ht. unfold js_ge, as_integer. simpl.
  repeat split; try done; case_bool_decide; naive_solver.
Qed.

Lemma updateGoalProgress_achieved_witness :
  ∃ r s' t' g',
    updateGoalProgress 1 9 sample = (Ok r, s')
    ∧ stored s' = Some t'
    ∧ goals t' !! 1 = Some g'
    ∧ g_current_value g' = 9
    ∧ g_achieved g' = as_integer (bool_decide (10 ≤ 9))
    ∧ (g_achieved g' = 1 ↔ 10 ≤ 9)
    ∧ g_target_value g' = Some 10.
Proof.
  apply (updateGoalProgress_achieved sample sample_db 1 9 10
           {| g_activity_id := Some 1; g_target_value := Some 10;
              g_current_value := 0; g_target_date := None;
              g_achieved := 0; g_created_at := 102 |}); by vm_compute.
Defined.

(** ** Foreign keys: cascade on delete, rejection on insert *)

(** [init] on a file that opens leaves an open connection over the file's
    content with foreign keys enabled. *)
Lemma init_enables_foreign_keys (t : tables) (s : ProgressBuddyDB) :
  ∃ s' d, init (Some t) s = (Ok true, s') ∧ db s' = Some d
          ∧ open d = true ∧ foreign_keys d = true
          ∧ data d = t ∧ txn d = None.
Proof. do 2 eexists. split; [reflexivity|]. simpl. done. Qed.

(** C4. For an existing activity, [deleteActivity id] is one statement
    that removes the activity row and, by the ON DELETE CASCADE actions
    enabled in [createTables], every log and every goal whose [activity_id]
    is [id]; rows of other activities stay. *)
Theorem deleteActivity_cascade (s : ProgressBuddyDB) (d : Database) (id : Z) :
  db s = Some d → open d = true → foreign_keys d = true →
  is_Some (activities (data d) !! id) →
  ∃ r s' t',
    deleteActivity id s = (Ok r, s') ∧ changes r = 1
    ∧ stored s' = Some t'
    ∧ activities t' !! id = None
    ∧ (∀ k l, logs t' !! k = Some l → l_activity_id l ≠ Some id)
    ∧ (∀ k g, goals t' !! k = Some g → g_activity_id g ≠ Some id)
    ∧ (∀ k, k ≠ id → activities t' !! k = activities (data d) !! k)
    ∧ (∀ k l, logs (data d) !! k = Some l → l_activity_id l ≠ Some id →
              logs t' !! k = Some l)
    ∧ (∀ k g, goals (data d) !! k = Some g → g_activity_id g ≠ Some id →
              goals t' !! k = Some g).
Proof.
  intros Hdb Hopen Hfk [old Hold].
  unfold deleteActivity.
  erewrite (run_open_Ok s d Hdb Hopen); last first.
  { unfold Sqlite.delete_activity. rewrite Hold, Hfk. reflexivity. }
  do 3 eexists. split; [reflexivity|]. split; [done|].
  split; [reflexivity|]. simpl.
  split; [apply lookup_delete_eq|].
  split. { intros k l Hl. by apply map_lookup_filter_Some in Hl as [_ ?]. }
  split. { intros k g Hg. by apply map_lookup_filter_Some in Hg as [_ ?]. }
  split. { intros k Hk. by apply lookup_delete_ne. }
  split; intros k x Hx Hne; by apply map_lookup_filter_Some.
Qed.

Lemma deleteActivity_cascade_witness :
  ∃ r s' t',
    deleteActivity 1 sample = (Ok r, s') ∧ changes r = 1
    ∧ stored s' = Some t'
    ∧ activities t' !! 1 = None
    ∧ (∀ k l, logs t' !! k = Some l → l_activity_id l ≠ Some 1)
    ∧ (∀ k g, goals t' !! k = Some g → g_activity_id g ≠ Some 1)
    ∧ (∀ k, k ≠ 1 → activities t' !! k = activities (data sample_db) !! k)
    ∧ (∀ k l, logs (data sample_db) !! k = Some l →
              l_activity_id l ≠ Some 1 → logs t' !! k = Some l)
    ∧ (∀ k g, goals (data sample_db) !! k = Some g →
              g_activity_id g ≠ Some 1 → goals t' !! k = Some g).
Proof.
  apply (deleteActivity_cascade sample sample_db 1);
    [by vm_compute ..|vm_compute; eauto].
Defined.

(** C5. With foreign keys enabled, [createLog] on a record whose
    [activity_id] references no existing activity fails with a constraint
    failure of the engine and inserts nothing (the database is as it was);
    when the record is otherwise well formed ([activity_id] and [text]
    present) the failure is the foreign-key violation. A record that lacks
    [activity_id] or [text] is rejected by NOT NULL before the foreign key is
    looked at. *)
Theorem createLog_dangling
  (s : ProgressBuddyDB) (d : Database) (l : log) (now : timestamp) :
  db s = Some d → open d = true → foreign_keys d = true →
  (∀ aid, log_activity_id l = Some aid → activities (data d) !! aid = None) →
  ∃ code s',
    createLog l now s = (Err (SqliteError code), s')
    ∧ db s' = Some d
    ∧ stored s' = stored s
    ∧ (is_Some (log_activity_id l) → is_Some (text l) →
       code = SQLITE_CONSTRAINT_FOREIGNKEY)
    ∧ (code = SQLITE_CONSTRAINT_FOREIGNKEY ∨ code = SQLITE_CONSTRAINT_NOTNULL).
Proof.
  intros Hdb Hopen Hfk Href.
  assert (Hsql : ∃ code,
    Sqlite.insert_log l now (foreign_keys d) (data d) = Err code
    ∧ (is_Some (log_activity_id l) → is_Some (text l) →
       code = SQLITE_CONSTRAINT_FOREIGNKEY)
    ∧ (code = SQLITE_CONSTRAINT_FOREIGNKEY
       ∨ code = SQLITE_CONSTRAINT_NOTNULL)).
  { unfold Sqlite.insert_log.
    destruct (log_activity_id l) as [aid|] eqn:Haid.
    - destruct (text l) as [txt|] eqn:Htxt.
      + unfold Sqlite.references_activity. rewrite Hfk, (Href aid eq_refl).
        rewrite bool_decide_eq_false_2 by (by intros [? ?]).
        simpl. eauto.
      + eexists. split; [reflexivity|]. split; [|by right].
        by intros _ [? ?].
    - eexists. split; [reflexivity|]. split; [|by right].
      by intros [? ?]. }
  destruct Hsql as (code & Hsql & Hfkcode & Hcodes).
  exists code. eexists. unfold createLog.
  rewrite (run_open_Err s d Hdb Hopen _ _ Hsql).
  split; [reflexivity|]. unfold stored. simpl. by rewrite Hdb.
Qed.

Lemma createLog_dangling_witness :
  ∃ code s',
    createLog {| log_activity_id := Some 999; text := Some "note";
                 metrics := None |} 200 sample
    = (Err (SqliteError code), s')
    ∧ db s' = Some sample_db
    ∧ stored s' = stored sample
    ∧ (is_Some (Some 999) → is_Some (Some "note") →
       code = SQLITE_CONSTRAINT_FOREIGNKEY)
    ∧ (code = SQLITE_CONSTRAINT_FOREIGNKEY ∨ code = SQLITE_CONSTRAINT_NOTNULL).
Proof.
  apply (createLog_dangling sample sample_db
           {| log_activity_id := Some 999; text := Some "note";
              metrics := None |} 200); try by vm_compute.
  intros aid [= <-]. by vm_compute.
Defined.

(** ** Activities: create, list, update *)

(** A generated id is new to its table: an insert never replaces a row. *)
Lemma max_rowid_ge {A} (t : gmap Z A) (k : Z) (x : A) :
  t !! k = Some x → k ≤ Sqlite.max_rowid t.
Proof.
  intros Hk. unfold Sqlite.max_rowid.
  assert (Hin : k ∈ (map_to_list t).*1).
  { apply list_elem_of_fmap. exists (k, x). split; [done|].
    by apply elem_of_map_to_list. }
  clear Hk. revert Hin. generalize ((map_to_list t).*1). intros l Hin.
  induction Hin as [k l|k j l _ IH]; simpl; lia.
Qed.

Lemma next_rowid_fresh {A} (seq : Z) (t : gmap Z A) :
  t !! Sqlite.next_rowid seq t = None.
Proof.
  destruct (t !! Sqlite.next_rowid seq t) as [x|] eqn:Hk; [|done].
  apply max_rowid_ge in Hk. unfold Sqlite.next_rowid in Hk. lia.
Qed.

Lemma required_not_null (a : activity) :
  is_Some (name a) → is_Some (specific a) →
  is_Some (measurable a) → is_Some (timebound a) →
  Sqlite.is_null (name a) || Sqlite.is_null (specific a)
  || Sqlite.is_null (measurable a) || Sqlite.is_null (timebound a) = false.
Proof. by intros [? ->] [? ->] [? ->] [? ->]. Qed.

Lemma some_required_null (a : activity) :
  ¬ (is_Some (name a) ∧ is_Some (specific a)
     ∧ is_Some (measurable a) ∧ is_Some (timebound a)) →
  Sqlite.is_null (name a) || Sqlite.is_null (specific a)
  || Sqlite.is_null (measurable a) || Sqlite.is_null (timebound a) = true.
Proof.
  intros Hnot.
  destruct (name a), (specific a), (measurable a), (timebound a);
    try done; exfalso; apply Hnot; eauto.
Qed.

#[local] Instance newer_first_transitive {A} (created : A → timestamp) :
  Transitive (Sqlite.newer_first created).
Proof. unfold Sqlite.newer_first. intros x y z ??. lia. Qed.

#[local] Instance newer_first_total {A} (created : A → timestamp) :
  Total (Sqlite.newer_first created).
Proof. unfold Sqlite.newer_first. intros x y. lia. Qed.

(** ORDER BY returns the rows it is given, each once, newest first. *)
Lemma order_by_created_at_desc_spec {A} (created : A → timestamp)
  (rows : list (Z * A)) :
  Sqlite.order_by_created_at_desc created rows ≡ₚ rows
  ∧ StronglySorted (Sqlite.newer_first created)
      (Sqlite.order_by_created_at_desc created rows).
Proof.
  unfold Sqlite.order_by_created_at_desc. split.
  - apply merge_sort_Permutation.
  - apply (StronglySorted_merge_sort _).
Qed.

Lemma select_activities_elem_of (t : tables) (k : Z) (row : activity_row) :
  (k, row) ∈ Sqlite.select_activities t ↔ activities t !! k = Some row.
Proof.
  unfold Sqlite.select_activities.
  destruct (order_by_created_at_desc_spec a_created_at
              (map_to_list (activities t))) as [Hperm _].
  rewrite Hperm. apply elem_of_map_to_list.
Qed.

(** C7. For a valid activity input (the four required fields present),
    [createActivity] succeeds and the list [getAllActivities] then returns
    contains the new record under the generated id, with the eight text
    fields equal to the input and [completed] at its default 0 (false); the
    list holds exactly the stored activities and is ordered by [created_at],
    newest first. *)
Theorem createActivity_listed
  (s : ProgressBuddyDB) (d : Database) (a : activity) (now : timestamp) :
  db s = Some d → open d = true →
  is_Some (name a) → is_Some (specific a) →
  is_Some (measurable a) → is_Some (timebound a) →
  ∃ r s1 t1 rows row,
    createActivity a now s = (Ok r, s1) ∧ changes r = 1
    ∧ stored s1 = Some t1
    ∧ getAllActivities s1 = (Ok rows, s1)
    ∧ (id r, row) ∈ rows
    ∧ a_name row = name a ∧ a_description row = description a
    ∧ a_specific row = specific a ∧ a_measurable row = measurable a
    ∧ a_achievable row = achievable a ∧ a_relevant row = relevant a
    ∧ a_timebound row = timebound a ∧ a_buddy_email row = buddy_email a
    ∧ a_completed row = 0 ∧ a_created_at row = now
    ∧ (∀ k x, (k, x) ∈ rows ↔ activities t1 !! k = Some x)
    ∧ StronglySorted (Sqlite.newer_first a_created_at) rows.
Proof.
  intros Hdb Hopen Hn Hs Hm Ht.
  unfold createActivity.
  erewrite (run_open_Ok s d Hdb Hopen); last first.
  { unfold Sqlite.insert_activity.
    rewrite (required_not_null a Hn Hs Hm Ht). reflexivity. }
  do 5 eexists. split; [reflexivity|]. split; [done|].
  split; [reflexivity|].
  split. { unfold getAllActivities. by erewrite all_open. }
  simpl. split.
  { apply select_activities_elem_of. simpl. apply lookup_insert_eq. }
  simpl. repeat (split; [reflexivity|]).
  split; [intros; apply select_activities_elem_of|].
  apply order_by_created_at_desc_spec.
Qed.

Lemma createActivity_listed_witness :
  ∃ r s1 t1 rows row,
    createActivity run_5k 300 sample = (Ok r, s1) ∧ changes r = 1
    ∧ stored s1 = Some t1
    ∧ getAllActivities s1 = (Ok rows, s1)
    ∧ (id r, row) ∈ rows
    ∧ a_name row = name run_5k ∧ a_description row = description run_5k
    ∧ a_specific row = specific run_5k ∧ a_measurable row = measurable run_5k
    ∧ a_achievable row = achievable run_5k ∧ a_relevant row = relevant run_5k
    ∧ a_timebound row = timebound run_5k
    ∧ a_buddy_email row = buddy_email run_5k
    ∧ a_completed row = 0 ∧ a_created_at row = 300
    ∧ (∀ k x, (k, x) ∈ rows ↔ activities t1 !! k = Some x)
    ∧ StronglySorted (Sqlite.newer_first a_created_at) rows.
Proof.
  apply (createActivity_listed sample sample_db run_5k 300);
    [by vm_compute..| | | |]; vm_compute; eauto.
Defined.

(** C6, as stated, fails on [completed]: the UPDATE statement has no
    [completed = ?], so a record that carries [completed: true] leaves the
    stored 0 in place. *)
Lemma updateActivity_completed_counterexample :
  ∃ a r s' t' row,
    a = {| name := Some "Run 5k"; description := None;
           specific := Some "Run"; measurable := Some "5km";
           achievable := None; relevant := None;
           timebound := Some "30 days"; buddy_email := None;
           completed := Some true |}
    ∧ updateActivity 1 a 300 sample = (Ok r, s') ∧ changes r = 1
    ∧ stored s' = Some t'
    ∧ activities t' !! 1 = Some row
    ∧ a_completed row = 0
    ∧ a_completed row ≠ as_integer true.
Proof.
  do 5 eexists. split; [reflexivity|].
  split; [by vm_compute|]. split; [done|].
  split; [reflexivity|]. split; [by vm_compute|]. done.
Qed.

(** C6, amended. On an open Store, [updateActivity id a now]
    - returns an affected-row count of 0, without failing and without
      changing anything, when no activity has the id;
    - when the activity exists and the four required fields of the record
      are present, rewrites name, description, specific, measurable,
      achievable, relevant, timebound and buddy_email from the record, sets
      [updated_at] to the current time, keeps [completed] and [created_at],
      touches no other row, and returns a count of 1;
    - when the activity exists and a required field is absent, fails on the
      NOT NULL constraint and changes nothing. *)
Theorem updateActivity_rewrites
  (s : ProgressBuddyDB) (d : Database) (id : Z) (a : activity)
  (now : timestamp) :
  db s = Some d → open d = true →
  (activities (data d) !! id = None →
   ∃ r, updateActivity id a now s = (Ok r, s) ∧ changes r = 0)
  ∧ (∀ old, activities (data d) !! id = Some old →
     is_Some (name a) ∧ is_Some (specific a)
     ∧ is_Some (measurable a) ∧ is_Some (timebound a) →
     ∃ r s' t' row,
       updateActivity id a now s = (Ok r, s') ∧ changes r = 1
       ∧ stored s' = Some t'
       ∧ activities t' !! id = Some row
       ∧ a_name row = name a ∧ a_description row = description a
       ∧ a_specific row = specific a ∧ a_measurable row = measurable a
       ∧ a_achievable row = achievable a ∧ a_relevant row = relevant a
       ∧ a_timebound row = timebound a ∧ a_buddy_email row = buddy_email a
       ∧ a_updated_at row = now
       ∧ a_completed row = a_completed old
       ∧ a_created_at row = a_created_at old
       ∧ (∀ k, k ≠ id → activities t' !! k = activities (data d) !! k)
       ∧ logs t' = logs (data d) ∧ goals t' = goals (data d))
  ∧ (∀ old, activities (data d) !! id = Some old →
     ¬ (is_Some (name a) ∧ is_Some (specific a)
        ∧ is_Some (measurable a) ∧ is_Some (timebound a)) →
     ∃ s', updateActivity id a now s
           = (Err (SqliteError SQLITE_CONSTRAINT_NOTNULL), s')
           ∧ db s' = Some d).
Proof.
  intros Hdb Hopen. unfold updateActivity. split; [|split].
  - intros Hnone.
    exists {| id := last_insert_rowid d; changes := 0 |}. split; [|done].
    apply (run_open_same s d Hdb Hopen).
    unfold Sqlite.update_activity. by rewrite Hnone.
  - intros old Hold (Hn & Hs & Hm & Ht).
    erewrite (run_open_Ok s d Hdb Hopen); last first.
    { unfold Sqlite.update_activity.
      rewrite Hold, (required_not_null a Hn Hs Hm Ht). reflexivity. }
    do 4 eexists. split; [reflexivity|]. split; [done|].
    split; [reflexivity|]. simpl.
    split; [apply lookup_insert_eq|]. simpl.
    repeat (split; [reflexivity|]).
    split; [|done]. intros k Hk. by apply lookup_insert_ne.
  - intros old Hold Hnot.
    erewrite (run_open_Err s d Hdb Hopen); last first.
    { unfold Sqlite.update_activity.
      rewrite Hold, (some_required_null a Hnot). reflexivity. }
    eexists. split; reflexivity.
Qed.

Lemma updateActivity_rewrites_witness :
  ∃ r s' t' row,
    updateActivity 1 run_5k 300 sample = (Ok r, s') ∧ changes r = 1
    ∧ stored s' = Some t'
    ∧ activities t' !! 1 = Some row
    ∧ a_name row = name run_5k ∧ a_description row = description run_5k
    ∧ a_specific row = specific run_5k
    ∧ a_measurable row = measurable run_5k
    ∧ a_achievable row = achievable run_5k
    ∧ a_relevant row = relevant run_5k
    ∧ a_timebound row = timebound run_5k
    ∧ a_buddy_email row = buddy_email run_5k
    ∧ a_updated_at row = 300
    ∧ a_completed row = a_completed run_5k_row
    ∧ a_created_at row = a_created_at run_5k_row
    ∧ (∀ k, k ≠ 1 → activities t' !! k = activities (data sample_db) !! k)
    ∧ logs t' = logs (data sample_db) ∧ goals t' = goals (data sample_db).
Proof.
  refine (proj1 (proj2 (updateActivity_rewrites sample sample_db 1 run_5k 300
                          _ _))
                run_5k_row _ _); try by vm_compute.
  vm_compute. eauto 10.
Defined.

(** ** [transaction] *)

(** The primitives and what is built from them leave the connection and
    its transaction alone. *)
Lemma keeps_transaction_ret {A} (a : A) : keeps_transaction (ret a).
Proof. intros s d r s' Hdb [= <- <-]. eauto. Qed.

Lemma keeps_transaction_throw {A} (e : error) :
  keeps_transaction (throw (A:=A) e).
Proof. intros s d r s' Hdb [= <- <-]. eauto. Qed.

Lemma keeps_transaction_print (line : console_line) :
  keeps_transaction (print line).
Proof. intros s d r s' Hdb [= <- <-]. simpl. eauto. Qed.

Lemma keeps_transaction_bind {A B}
  (m : comp ProgressBuddyDB A) (k : A → comp ProgressBuddyDB B) :
  keeps_transaction m → (∀ a, keeps_transaction (k a)) →
  keeps_transaction (bind m k).
Proof.
  intros Hm Hk s d r s' Hdb. unfold bind.
  destruct (m s) as [[a|e] s1] eqn:Hms;
    destruct (Hm _ _ _ _ Hdb Hms) as (d1 & Hdb1 & Ho1 & Ht1).
  - intros Hks. destruct (Hk a _ _ _ _ Hdb1 Hks) as (d2 & ? & ? & ?).
    exists d2. split; [done|]. split; congruence.
  - intros [= <- <-]. eauto.
Qed.

Lemma keeps_transaction_try_catch {A}
  (body : comp ProgressBuddyDB A) (handler : error → comp ProgressBuddyDB A) :
  keeps_transaction body → (∀ e, keeps_transaction (handler e)) →
  keeps_transaction (try_catch body handler).
Proof.
  intros Hm Hk s d r s' Hdb. unfold try_catch.
  destruct (body s) as [[a|e] s1] eqn:Hms;
    destruct (Hm _ _ _ _ Hdb Hms) as (d1 & Hdb1 & Ho1 & Ht1).
  - intros [= <- <-]. eauto.
  - intros Hks. destruct (Hk e _ _ _ _ Hdb1 Hks) as (d2 & ? & ? & ?).
    exists d2. split; [done|]. split; congruence.
Qed.

Lemma keeps_transaction_this_db {A} (method : comp Database A) :
  (∀ d r d', method d = (r, d') → open d' = open d ∧ txn d' = txn d) →
  keeps_transaction (this_db method).
Proof.
  intros Hmethod s d r s' Hdb. unfold this_db. rewrite Hdb.
  destruct (method d) as [r1 d1] eqn:Hm. intros [= <- <-].
  destruct (Hmethod _ _ _ Hm). simpl. eauto.
Qed.

Lemma keeps_transaction_prepare {Q} (sql : Q) :
  keeps_transaction (this_db (prepare sql)).
Proof.
  apply keeps_transaction_this_db. intros d r d'. unfold prepare.
  by destruct (open d) eqn:Hopen; intros [= <- <-].
Qed.

Lemma keeps_transaction_stmt_read {A} (q : tables → A) :
  keeps_transaction (this_db (stmt_read q)).
Proof.
  apply keeps_transaction_this_db. intros d r d'. unfold stmt_read.
  by destruct (open d) eqn:Hopen; intros [= <- <-].
Qed.

Lemma keeps_transaction_stmt_run (sql : Sqlite.statement) :
  keeps_transaction (this_db (stmt_run sql)).
Proof.
  apply keeps_transaction_this_db. intros d r d'. unfold stmt_run.
  destruct (open d) eqn:Hopen; [|by intros [= <- <-]].
  by destruct (sql _ _) as [[o t']|c]; intros [= <- <-].
Qed.

Lemma keeps_transaction_rethrow {A} (msg : string) (e : error) :
  keeps_transaction (print (console_error msg e);; throw (A:=A) e).
Proof.
  apply keeps_transaction_bind;
    auto using keeps_transaction_print, keeps_transaction_throw.
Qed.

Lemma keeps_transaction_get {A} (sql : tables → option A) :
  keeps_transaction (get sql).
Proof.
  apply keeps_transaction_try_catch;
    [apply keeps_transaction_bind|];
    auto using keeps_transaction_prepare, keeps_transaction_stmt_read,
               keeps_transaction_rethrow.
Qed.

Lemma keeps_transaction_all {A} (sql : tables → list A) :
  keeps_transaction (all sql).
Proof.
  apply keeps_transaction_try_catch;
    [apply keeps_transaction_bind|];
    auto using keeps_transaction_prepare, keeps_transaction_stmt_read,
               keeps_transaction_rethrow.
Qed.

Lemma keeps_transaction_run (sql : Sqlite.statement) :
  keeps_transaction (run sql).
Proof.
  apply keeps_transaction_try_catch;
    [apply keeps_transaction_bind|];
    auto using keeps_transaction_prepare, keeps_transaction_stmt_run,
               keeps_transaction_rethrow.
Qed.

Lemma keeps_transaction_updateGoalProgress (goalId v : Z) :
  keeps_transaction (updateGoalProgress goalId v).
Proof.
  apply keeps_transaction_bind; [apply keeps_transaction_get|].
  intros row. apply keeps_transaction_bind.
  - destruct row; [apply keeps_transaction_ret|apply keeps_transaction_throw].
  - intros target. apply keeps_transaction_run.
Qed.

Lemma keeps_transaction_perform (c : call) : keeps_transaction (perform c).
Proof.
  destruct c; simpl; apply keeps_transaction_bind;
    try (intros; apply keeps_transaction_ret);
    first [ apply keeps_transaction_run
          | apply keeps_transaction_all
          | apply keeps_transaction_updateGoalProgress ].
Qed.

Lemma keeps_transaction_perform_all (cs : list call) :
  keeps_transaction (perform_all cs).
Proof.
  induction cs as [|c cs IH]; simpl.
  - apply keeps_transaction_ret.
  - apply keeps_transaction_bind; auto using keeps_transaction_perform.
Qed.

Lemma keeps_transaction_unit_of_work (body : list call) (raise : option error) :
  keeps_transaction (unit_of_work body raise).
Proof.
  apply keeps_transaction_bind; [apply keeps_transaction_perform_all|].
  intros _. destruct raise;
    [apply keeps_transaction_throw|apply keeps_transaction_ret].
Qed.

Lemma begin_open (s : ProgressBuddyDB) (d : Database) :
  db s = Some d → open d = true → txn d = None →
  this_db (exec BEGIN_TRANSACTION) s = (Ok (), begun s d).
Proof.
  intros Hdb Hopen Htxn. unfold this_db, exec, begun.
  by rewrite Hdb, Hopen, Htxn.
Qed.

(** X19. Without a connection, or inside a transaction already begun,
    BEGIN fails and [transaction] never invokes the unit of work: the result
    does not depend on it. On a Store without a connection the TypeError is
    raised and nothing changes. In the nested case the handler's ROLLBACK
    ends the outer transaction: the tables go back to what they were before
    the outer BEGIN, and the failure raised is the engine's refusal of the
    inner BEGIN. *)
Lemma transaction_not_begun {A}
  (callback : comp ProgressBuddyDB A) (s : ProgressBuddyDB) :
  (db s = None → transaction callback s = (Err null_db, s))
  ∧ (∀ d saved, db s = Some d → open d = true → txn d = Some saved →
     ∃ s', transaction callback s = (Err (SqliteError SQLITE_ERROR), s')
           ∧ stored s' = Some saved ∧ txn <$> db s' = Some None).
Proof.
  split.
  - intros Hdb. unfold transaction, try_catch, bind, this_db, throw.
    rewrite Hdb. simpl. by rewrite Hdb.
  - intros d saved Hdb Hopen Htxn. eexists.
    unfold transaction, try_catch, bind, this_db, exec.
    rewrite Hdb, Hopen, Htxn. simpl. rewrite Hopen, Htxn. simpl.
    split; [reflexivity|]. done.
Qed.

(** C2. On an open connection with no transaction in progress,
    [transaction] runs the unit of work after BEGIN. If the unit of work
    raises a failure, whatever it wrote before, [transaction] raises that
    same failure and the stored tables are those from before the call; if it
    completes normally, [transaction] returns its result and the tables are
    those the unit of work left. Either way no transaction stays open. The
    unit of work is any computation that leaves the connection and its
    transaction alone, as those made of [get], [all], [run] and the entity
    methods do. *)
Theorem transaction_atomic {A}
  (callback : comp ProgressBuddyDB A) (s : ProgressBuddyDB) (d : Database) :
  keeps_transaction callback →
  db s = Some d → open d = true → txn d = None →
  (∀ e s1, callback (begun s d) = (Err e, s1) →
     ∃ s', transaction callback s = (Err e, s')
           ∧ stored s' = stored s
           ∧ txn <$> db s' = Some None)
  ∧ (∀ a s1, callback (begun s d) = (Ok a, s1) →
     ∃ s', transaction callback s = (Ok a, s')
           ∧ stored s' = stored s1
           ∧ txn <$> db s' = Some None).
Proof.
  intros Hkeeps Hdb Hopen Htxn.
  pose proof (begin_open s d Hdb Hopen Htxn) as Hbegin.
  split.
  - intros e s1 Hcall.
    destruct (Hkeeps (begun s d) _ _ _ eq_refl Hcall)
      as (d1 & Hdb1 & Hopen1 & Htxn1). simpl in Hopen1, Htxn1.
    eexists. split.
    + unfold transaction, try_catch, bind. rewrite Hbegin, Hcall.
      unfold this_db, exec. rewrite Hdb1, Hopen1, Hopen, Htxn1. reflexivity.
    + unfold stored. simpl. by rewrite Hdb.
  - intros a s1 Hcall.
    destruct (Hkeeps (begun s d) _ _ _ eq_refl Hcall)
      as (d1 & Hdb1 & Hopen1 & Htxn1). simpl in Hopen1, Htxn1.
    eexists. split.
    + unfold transaction, try_catch, bind. rewrite Hbegin, Hcall.
      unfold this_db, exec. rewrite Hdb1, Hopen1, Hopen, Htxn1. reflexivity.
    + unfold stored. simpl. by rewrite Hdb1.
Qed.

Lemma transaction_atomic_witness :
  ∃ s', transaction
          (unit_of_work [CreateActivity run_5k 300] (Some (Thrown "boom")))
          sample = (Err (Thrown "boom"), s')
        ∧ stored s' = stored sample
        ∧ txn <$> db s' = Some None.
Proof.
  refine (proj1 (transaction_atomic
                   (unit_of_work [CreateActivity run_5k 300]
                                 (Some (Thrown "boom")))
                   sample sample_db
                   (keeps_transaction_unit_of_work _ _) _ _ _)
                (Thrown "boom")
                (unit_of_work [CreateActivity run_5k 300]
                              (Some (Thrown "boom"))
                              (begun sample sample_db)).2 _);
    by vm_compute.
Defined.

(** ** The NOT NULL columns of [activities] *)

(** C8, as stated, fails: NOT NULL admits the empty string, so
    [createActivity] stores a row whose [name] is empty. *)
Lemma createActivity_empty_name_counterexample :
  ∃ a r s' t' row,
    a = {| name := Some EmptyString; description := None;
           specific := Some "Run"; measurable := Some "5km";
           achievable := None; relevant := None;
           timebound := Some "30 days"; buddy_email := None;
           completed := None |}
    ∧ createActivity a 100 fresh = (Ok r, s')
    ∧ stored s' = Some t'
    ∧ activities t' !! id r = Some row
    ∧ a_name row = Some EmptyString
    ∧ ¬ required_nonempty row.
Proof.
  do 5 eexists. split; [reflexivity|].
  split; [by vm_compute|]. split; [reflexivity|].
  split; [by vm_compute|]. split; [reflexivity|].
  intros [(str & [= <-] & Hne) _]. by apply Hne.
Qed.

Section preservation.
Context {A B : Type}.
Implicit Types I : ProgressBuddyDB → Prop.

Lemma preserves_ret I (a : A) : preserves I (ret a).
Proof. by intros s r s' HI [= <- <-]. Qed.

Lemma preserves_throw I (e : error) : preserves I (throw (A:=A) e).
Proof. by intros s r s' HI [= <- <-]. Qed.

Lemma preserves_bind I
  (m : comp ProgressBuddyDB A) (k : A → comp ProgressBuddyDB B) :
  preserves I m → (∀ a, preserves I (k a)) → preserves I (bind m k).
Proof.
  intros Hm Hk s r s' HI. unfold bind.
  destruct (m s) as [[a|e] s1] eqn:Hms; pose proof (Hm _ _ _ HI Hms).
  - by apply Hk.
  - by intros [= <- <-].
Qed.

(** The same, when the continuation is only known to behave on the values
    the first computation can return. *)
Lemma preserves_bind_on I (P : A → Prop)
  (m : comp ProgressBuddyDB A) (k : A → comp ProgressBuddyDB B) :
  preserves I m → (∀ s a s', m s = (Ok a, s') → P a) →
  (∀ a, P a → preserves I (k a)) → preserves I (bind m k).
Proof.
  intros Hm HP Hk s r s' HI. unfold bind.
  destruct (m s) as [[a|e] s1] eqn:Hms; pose proof (Hm _ _ _ HI Hms).
  - apply Hk; eauto.
  - by intros [= <- <-].
Qed.

Lemma preserves_try_catch I
  (body : comp ProgressBuddyDB A) (handler : error → comp ProgressBuddyDB A) :
  preserves I body → (∀ e, preserves I (handler e)) →
  preserves I (try_catch body handler).
Proof.
  intros Hm Hk s r s' HI. unfold try_catch.
  destruct (body s) as [[a|e] s1] eqn:Hms; pose proof (Hm _ _ _ HI Hms).
  - by intros [= <- <-].
  - by apply Hk.
Qed.

End preservation.

(** What every property of the connection survives: console output, reads,
    and any driver call that keeps it. *)
Section connection_property.
Variable J : Database → Prop.

Lemma preserves_this_db {A} (method : comp Database A) :
  (∀ d r d', J d → method d = (r, d') → J d') →
  preserves (holds J) (this_db method).
Proof.
  intros Hmethod s r s' HJ. unfold this_db.
  destruct (db s) as [d|] eqn:Hdb; [|by intros [= <- <-]].
  destruct (method d) as [r1 d1] eqn:Hm. intros [= <- <-] d' [= <-].
  eapply Hmethod; eauto.
Qed.

Lemma preserves_print (line : console_line) : preserves (holds J) (print line).
Proof. intros s r s' HJ [= <- <-] d Hd. by apply HJ. Qed.

Lemma preserves_rethrow {A} (msg : string) (e : error) :
  preserves (holds J) (print (console_error msg e);; throw (A:=A) e).
Proof.
  apply preserves_bind; [apply preserves_print|].
  intros _. apply preserves_throw.
Qed.

Lemma preserves_prepare {Q} (sql : Q) :
  preserves (holds J) (this_db (prepare sql)).
Proof.
  apply preserves_this_db. intros d r d' HJ. unfold prepare.
  by destruct (open d); intros [= <- <-].
Qed.

Lemma preserves_stmt_read {A} (q : tables → A) :
  preserves (holds J) (this_db (stmt_read q)).
Proof.
  apply preserves_this_db. intros d r d' HJ. unfold stmt_read.
  by destruct (open d); intros [= <- <-].
Qed.

Lemma preserves_get {A} (sql : tables → option A) :
  preserves (holds J) (get sql).
Proof.
  apply preserves_try_catch; [apply preserves_bind|];
    auto using preserves_prepare, preserves_stmt_read, preserves_rethrow.
Qed.

Lemma preserves_all {A} (sql : tables → list A) :
  preserves (holds J) (all sql).
Proof.
  apply preserves_try_catch; [apply preserves_bind|];
    auto using preserves_prepare, preserves_stmt_read, preserves_rethrow.
Qed.

Lemma preserves_run (sql : Sqlite.statement) :
  (∀ d r d', J d → stmt_run sql d = (r, d') → J d') →
  preserves (holds J) (run sql).
Proof.
  intros Hsql.
  apply preserves_try_catch; [|apply preserves_rethrow].
  apply (preserves_bind_on _ (λ stmt, stmt = sql));
    [apply preserves_prepare| |by intros ? ->; apply preserves_this_db].
  intros s stmt s'. unfold this_db, prepare.
  destruct (db s) as [d|]; [|done]. by destruct (open d); intros [= <- <-].
Qed.

(** From here on the property is one that the driver calls of the Store
    keep and that [init] establishes on the files it may open. *)
Variable opens : operation → Prop.
Hypothesis J_run : ∀ c, preserves (holds J) (perform c).
Hypothesis J_exec : ∀ sql d r d', J d → exec sql d = (r, d') → J d'.
Hypothesis J_close : ∀ d r d', J d → Database_close d = (r, d') → J d'.
Hypothesis J_init :
  ∀ file, opens (Init file) → preserves (holds J) (init file).

Lemma preserves_perform_all (cs : list call) :
  preserves (holds J) (perform_all cs).
Proof.
  induction cs as [|c cs IH]; simpl.
  - apply preserves_ret.
  - by apply preserves_bind.
Qed.

Lemma preserves_unit_of_work (body : list call) (raise : option error) :
  preserves (holds J) (unit_of_work body raise).
Proof.
  apply preserves_bind; [apply preserves_perform_all|].
  intros _. destruct raise; [apply preserves_throw|apply preserves_ret].
Qed.

Lemma preserves_transaction {A} (callback : comp ProgressBuddyDB A) :
  preserves (holds J) callback → preserves (holds J) (transaction callback).
Proof.
  intros Hcallback. apply preserves_try_catch.
  - apply preserves_bind; [by apply preserves_this_db, J_exec|]. intros _.
    apply preserves_bind; [done|]. intros result.
    apply preserves_bind; [by apply preserves_this_db, J_exec|]. intros _.
    apply preserves_ret.
  - intros e. apply preserves_bind; [by apply preserves_this_db, J_exec|].
    intros _. apply preserves_throw.
Qed.

Lemma preserves_close : preserves (holds J) close.
Proof.
  apply preserves_try_catch; [|intros; apply preserves_rethrow].
  assert (Hboth : preserves (holds J)
            (this_db Database_close;;
             print (console_log "✅ Database connection closed"))).
  { apply preserves_bind; [by apply preserves_this_db|].
    intros _. apply preserves_print. }
  intros s r s' HJ. destruct (db s) eqn:Hdb; [|by intros [= <- <-]].
  by apply Hboth.
Qed.

Lemma step_holds (s : ProgressBuddyDB) (op : operation) :
  opens op → holds J s → holds J (step s op).
Proof.
  intros Hop HJ. destruct op as [file|c|body raise|]; simpl.
  - eapply (J_init file Hop); [done|apply surjective_pairing].
  - eapply J_run; [done|apply surjective_pairing].
  - eapply (preserves_transaction _ (preserves_unit_of_work body raise));
      [done|apply surjective_pairing].
  - eapply preserves_close; [done|apply surjective_pairing].
Qed.

Lemma steps_holds (ops : list operation) (s : ProgressBuddyDB) :
  Forall opens ops → holds J s → holds J (steps ops s).
Proof.
  unfold steps. intros Hops. revert s.
  induction Hops as [|op ops Hop _ IH]; intros s HJ; simpl; [done|].
  apply IH. by apply step_holds.
Qed.

End connection_property.

(** Each statement of the Store keeps the NOT NULL columns filled. *)
Lemma insert_activity_wf (a : activity) (now : timestamp) :
  statement_wf (Sqlite.insert_activity a now).
Proof.
  intros fk t o t' Hwf. unfold Sqlite.insert_activity.
  destruct (name a) eqn:?, (specific a) eqn:?, (measurable a) eqn:?,
    (timebound a) eqn:?; simpl; intros [= <- <-]; simpl.
  apply map_Forall_insert_2; [|done].
  unfold required_present; simpl. eauto 10.
Qed.

Lemma update_activity_wf (a : activity) (now : timestamp) (id : Z) :
  statement_wf (Sqlite.update_activity a now id).
Proof.
  intros fk t o t' Hwf. unfold Sqlite.update_activity.
  destruct (activities t !! id); [|by intros [= <- <-]].
  destruct (name a) eqn:?, (specific a) eqn:?, (measurable a) eqn:?,
    (timebound a) eqn:?; simpl; intros [= <- <-]; simpl.
  apply map_Forall_insert_2; [|done].
  unfold required_present; simpl. eauto 10.
Qed.

Lemma delete_activity_wf (id : Z) : statement_wf (Sqlite.delete_activity id).
Proof.
  intros fk t o t' Hwf. unfold Sqlite.delete_activity.
  destruct (activities t !! id); intros [= <- <-]; [|done].
  by apply map_Forall_delete.
Qed.

Lemma insert_log_wf (l : log) (now : timestamp) :
  statement_wf (Sqlite.insert_log l now).
Proof.
  intros fk t o t' Hwf. unfold Sqlite.insert_log.
  destruct (log_activity_id l), (text l); try done.
  by destruct (fk && _); intros [= <- <-].
Qed.

Lemma insert_goal_wf (g : goal) (now : timestamp) :
  statement_wf (Sqlite.insert_goal g now).
Proof.
  intros fk t o t' Hwf. unfold Sqlite.insert_goal.
  destruct (goal_activity_id g), (target_value g); try done.
  by destruct (fk && _); intros [= <- <-].
Qed.

Lemma update_goal_wf (current achieved id : Z) :
  statement_wf (Sqlite.update_goal current achieved id).
Proof.
  intros fk t o t' Hwf. unfold Sqlite.update_goal.
  by destruct (goals t !! id); intros [= <- <-].
Qed.

Lemma stmt_run_wf (sql : Sqlite.statement) (d : Database)
  (r : result error run_result) (d' : Database) :
  statement_wf sql → db_wf d → stmt_run sql d = (r, d') → db_wf d'.
Proof.
  intros Hsql [Hdata Hsaved].
  unfold stmt_run. destruct (open d); [|by intros [= <- <-]].
  destruct (sql _ _) as [[o t']|c] eqn:Hrun; intros [= <- <-]; [|done].
  split; simpl; [by eapply Hsql|done].
Qed.

Lemma exec_wf (sql : script) (d : Database) (r : result error unit)
  (d' : Database) :
  db_wf d → exec sql d = (r, d') → db_wf d'.
Proof.
  intros Hwf. unfold exec.
  destruct (open d); [|by intros [= <- <-]].
  pose proof Hwf as [Hdata Hsaved].
  destruct sql; [by intros [= <- <-]|..];
    destruct (txn d) as [saved|] eqn:Htxn; intros [= <- <-]; try done;
    split; simpl; try done; try by intros ? [= <-].
  by apply Hsaved.
Qed.

Lemma pragma_wf (d : Database) (r : result error unit) (d' : Database) :
  db_wf d → pragma_foreign_keys_ON d = (r, d') → db_wf d'.
Proof.
  intros Hwf. unfold pragma_foreign_keys_ON.
  by destruct (open d); intros [= <- <-].
Qed.

Lemma Database_close_wf (d : Database) (r : result error unit)
  (d' : Database) :
  db_wf d → Database_close d = (r, d') → db_wf d'.
Proof.
  intros [Hdata Hsaved] [= <- <-]. split; simpl; [|done].
  destruct (txn d) as [saved|]; simpl; [by apply Hsaved|done].
Qed.

Lemma perform_wf (c : call) : preserves store_wf (perform c).
Proof.
  destruct c; simpl; apply preserves_bind;
    try (intros; apply preserves_ret);
    try apply preserves_all.
  6: { apply preserves_bind; [apply preserves_get|].
       intros row. apply preserves_bind.
       - destruct row; [apply preserves_ret|apply preserves_throw].
       - intros target. apply preserves_run. intros d r d'.
         apply stmt_run_wf, update_goal_wf. }
  all: apply preserves_run; intros d r d'; apply stmt_run_wf;
    auto using insert_activity_wf, update_activity_wf, delete_activity_wf,
               insert_log_wf, insert_goal_wf.
Qed.

Lemma createTables_wf : preserves store_wf createTables.
Proof.
  apply preserves_try_catch; [|intros; apply preserves_rethrow].
  repeat (apply preserves_bind;
          [first [ apply preserves_this_db, pragma_wf
                 | apply preserves_this_db, (exec_wf _)
                 | apply preserves_print ]|intros _]).
  apply preserves_ret.
Qed.

Lemma init_wf (file : option tables) :
  opens_wf (Init file) → preserves store_wf (init file).
Proof.
  intros Hfile. apply preserves_try_catch; [|intros; apply preserves_rethrow].
  apply preserves_bind; [|intros _].
  { intros s r s' Hwf. unfold set_db.
    destruct file as [t|]; simpl; intros [= <- <-]; [|done].
    intros d [= <-]. by split. }
  apply preserves_bind; [apply preserves_print|]. intros _.
  apply preserves_bind; [apply createTables_wf|]. intros _.
  apply preserves_ret.
Qed.

Lemma steps_wf (ops : list operation) (s : ProgressBuddyDB) :
  Forall opens_wf ops → store_wf s → store_wf (steps ops s).
Proof.
  apply (steps_holds db_wf opens_wf perform_wf exec_wf Database_close_wf
           init_wf).
Qed.

(** The statements of the Store never switch foreign keys off, and [init]
    switches them on. *)
Lemma perform_enforcing (c : call) : preserves (holds enforcing) (perform c).
Proof.
  assert (Hrun : ∀ sql d r d',
            enforcing d → stmt_run sql d = (r, d') → enforcing d').
  { intros sql d r d' Hfk. unfold stmt_run.
    destruct (open d); [|by intros [= <- <-]].
    by destruct (sql _ _) as [[o t']|code]; intros [= <- <-]. }
  destruct c; simpl; apply preserves_bind;
    try (intros; apply preserves_ret);
    try apply preserves_all; try (apply preserves_run, Hrun).
  apply preserves_bind; [apply preserves_get|].
  intros row. apply preserves_bind.
  - destruct row; [apply preserves_ret|apply preserves_throw].
  - intros target. apply preserves_run, Hrun.
Qed.

Lemma init_enforcing (file : option tables) :
  preserves (holds enforcing) (init file).
Proof.
  intros s r s' Hfk. destruct file as [t|].
  - intros [= <- <-] d [= <-]. reflexivity.
  - intros [= <- <-] d Hd. by apply Hfk.
Qed.

(** X20. A Store enforces foreign keys whenever it has a connection: after
    every sequence of [init], [close], entity-method calls and transactions
    on a new Store, whatever the files opened hold and whichever calls
    fail. *)
Lemma steps_enforcing (ops : list operation) :
  holds enforcing (steps ops constructor).
Proof.
  apply (steps_holds enforcing (λ _, True) perform_enforcing).
  - intros sql d r d' Hfk. unfold exec.
    destruct (open d); [|by intros [= <- <-]].
    destruct sql; [by intros [= <- <-]|..];
      by destruct (txn d); intros [= <- <-].
  - by intros d r d' Hfk [= <- <-].
  - intros file _. apply init_enforcing.
  - by apply Forall_true.
  - by intros d.
Qed.

(** C8, amended. The four required fields of every stored activity are
    present (not NULL; the empty string counts as present): this holds after
    every sequence of [init], [close], entity-method calls and transactions
    on a new Store, given that each database file [init] opens satisfies it;
    and [createActivity] with a required field absent fails on the NOT NULL
    constraint and stores nothing. *)
Theorem activities_required_present :
  (∀ ops t k row,
     Forall opens_wf ops →
     stored (steps ops constructor) = Some t →
     activities t !! k = Some row → required_present row)
  ∧ (∀ s d a now,
     db s = Some d → open d = true →
     ¬ (is_Some (name a) ∧ is_Some (specific a)
        ∧ is_Some (measurable a) ∧ is_Some (timebound a)) →
     ∃ s', createActivity a now s
           = (Err (SqliteError SQLITE_CONSTRAINT_NOTNULL), s')
           ∧ db s' = Some d).
Proof.
  split.
  - intros ops t k row Hops Hstored Hrow.
    assert (Hwf : store_wf (steps ops constructor)).
    { apply steps_wf; [done|]. by intros d. }
    unfold stored in Hstored.
    destruct (db (steps ops constructor)) as [d|] eqn:Hdb; [|done].
    injection Hstored as <-.
    destruct (Hwf d Hdb) as [Hdata _]. by apply (Hdata k).
  - intros s d a now Hdb Hopen Hnot. unfold createActivity.
    erewrite (run_open_Err s d Hdb Hopen); last first.
    { unfold Sqlite.insert_activity.
      rewrite (some_required_null a Hnot). reflexivity. }
    eexists. split; reflexivity.
Qed.

Lemma activities_required_present_witness :
  (∃ row, activities (data sample_db) !! 1 = Some row ∧ required_present row)
  ∧ (∃ s', createActivity
             {| name := None; description := None; specific := Some "Run";
                measurable := Some "5km"; achievable := None;
                relevant := None; timebound := Some "30 days";
                buddy_email := None; completed := None |} 300 sample
           = (Err (SqliteError SQLITE_CONSTRAINT_NOTNULL), s')
           ∧ db s' = Some sample_db).
Proof.
  split.
  - exists run_5k_row.
    split; [by vm_compute|].
    apply (proj1 activities_required_present
             [ Init (Some empty_tables);
               Call (CreateActivity run_5k 100);
               Call (CreateLog {| log_activity_id := Some 1;
                                  text := Some "first run";
                                  metrics := None |} 101);
               Call (CreateGoal {| goal_activity_id := Some 1;
                                   target_value := Some 10;
                                   target_date := None |} 102) ]
             (data sample_db) 1); [|by vm_compute..].
    apply Forall_cons_2; [apply map_Forall_empty|].
    repeat (apply Forall_cons_2; [exact I|]). apply Forall_nil_2.
  - apply (proj2 activities_required_present sample sample_db);
      [by vm_compute..|].
    simpl. by intros [[? [=]] _].
Defined.

(** * Further properties of the Store *)

(** ** Helper facts: unusable connections *)

Lemma this_db_unusable {A} (method : comp Database A)
  (s : ProgressBuddyDB) (e : error) :
  connection_error s = Some e →
  (∀ d, open d = false → method d = (Err not_open, d)) →
  this_db method s = (Err e, s).
Proof.
  unfold connection_error, this_db. intros He Hmethod.
  destruct s as [[d|] out]; simpl in *; [|by injection He as <-].
  destruct (open d) eqn:Hopen; [done|]. injection He as <-.
  by rewrite (Hmethod d Hopen).
Qed.

Lemma prepare_unusable {Q} (sql : Q) (s : ProgressBuddyDB) (e : error) :
  connection_error s = Some e → this_db (prepare sql) s = (Err e, s).
Proof.
  intros He. apply this_db_unusable; [done|].
  intros d Hopen. unfold prepare. by rewrite Hopen.
Qed.

Lemma get_unusable {A} (sql : tables → option A)
  (s : ProgressBuddyDB) (e : error) :
  connection_error s = Some e →
  get sql s = (Err e, logged s "Error in get query:" e).
Proof.
  intros He. unfold get, try_catch, bind. by rewrite (prepare_unusable _ s e).
Qed.

Lemma all_unusable {A} (sql : tables → list A)
  (s : ProgressBuddyDB) (e : error) :
  connection_error s = Some e →
  all sql s = (Err e, logged s "Error in all query:" e).
Proof.
  intros He. unfold all, try_catch, bind. by rewrite (prepare_unusable _ s e).
Qed.

Lemma run_unusable (sql : Sqlite.statement) (s : ProgressBuddyDB) (e : error) :
  connection_error s = Some e →
  run sql s = (Err e, logged s "Error in run query:" e).
Proof.
  intros He. unfold run, try_catch, bind. by rewrite (prepare_unusable _ s e).
Qed.

Lemma connection_error_open (s : ProgressBuddyDB) (d : Database) :
  db s = Some d → open d = true → connection_error s = None.
Proof. unfold connection_error. by intros -> ->. Qed.

Lemma connection_usable (s : ProgressBuddyDB) :
  connection_error s = None → ∃ d, db s = Some d ∧ open d = true.
Proof.
  unfold connection_error. destruct (db s) as [d|]; [|done].
  destruct (open d) eqn:Hopen; [eauto|done].
Qed.

(** ** [init] and [createTables] *)

(** X1. [init] on a database file that opens returns [true] and leaves an
    open connection over the file's content, unchanged by the schema
    statements, with foreign keys enabled and no transaction; it logs its two
    lines and nothing else. A connection the Store held before is dropped
    without being closed. *)
Theorem init_opens (t : tables) (s : ProgressBuddyDB) :
  init (Some t) s
  = (Ok true,
     {| db := Some {| open := true; foreign_keys := true; data := t;
                      txn := None; last_insert_rowid := 0 |};
        console := console s
                   ++ [console_log "✅ Connected to SQLite database";
                       console_log "✅ Database tables created/verified"] |}).
Proof.
  unfold init, try_catch, bind, set_db, print, createTables, this_db. simpl.
  by rewrite <- app_assoc.
Qed.

(** X2. [init] on a file that cannot be opened fails with the driver's
    error, logs it once as "Error opening database:", and leaves [this.db]
    as it was: on a new Store it stays [null], and every later statement is
    refused with a TypeError. *)
Theorem init_cannot_open (s : ProgressBuddyDB) :
  init None s
  = (Err (SqliteError SQLITE_CANTOPEN),
     logged s "Error opening database:" (SqliteError SQLITE_CANTOPEN))
  ∧ (db s = None →
     ∀ sql, ∃ s', run sql (init None s).2 = (Err null_db, s')
                  ∧ db s' = None).
Proof.
  split; [reflexivity|]. intros Hdb sql. eexists.
  rewrite (run_unusable sql _ null_db).
  - split; [reflexivity|]. simpl. done.
  - unfold connection_error. simpl. by rewrite Hdb.
Qed.

Lemma init_cannot_open_witness :
  init None constructor
  = (Err (SqliteError SQLITE_CANTOPEN),
     logged constructor "Error opening database:"
            (SqliteError SQLITE_CANTOPEN))
  ∧ ∃ s', run (Sqlite.delete_activity 1) (init None constructor).2
          = (Err null_db, s') ∧ db s' = None.
Proof.
  destruct (init_cannot_open constructor) as [Hinit Hrun].
  split; [exact Hinit|]. apply Hrun. reflexivity.
Defined.

Lemma createTables_open (s : ProgressBuddyDB) (d : Database) :
  db s = Some d → open d = true →
  createTables s
  = (Ok true,
     {| db := Some {| open := true;
                      foreign_keys := match txn d with
                                      | Some _ => foreign_keys d
                                      | None => true
                                      end;
                      data := data d; txn := txn d;
                      last_insert_rowid := last_insert_rowid d |};
        console := console s
                   ++ [console_log "✅ Database tables created/verified"] |}).
Proof.
  intros Hdb Hopen.
  unfold createTables, try_catch, bind, this_db, pragma_foreign_keys_ON,
    exec, print. simpl. rewrite Hdb. simpl. by rewrite Hopen.
Qed.

(** X3. [createTables] on an open connection returns [true] and changes no
    stored row: the tables exist already. It turns foreign keys on, except
    inside a transaction, where the pragma has no effect. Calling it again
    changes nothing more in the connection. *)
Theorem createTables_idempotent (s : ProgressBuddyDB) (d : Database) :
  db s = Some d → open d = true →
  ∃ s1 d1 s2,
    createTables s = (Ok true, s1)
    ∧ db s1 = Some d1
    ∧ data d1 = data d ∧ txn d1 = txn d
    ∧ last_insert_rowid d1 = last_insert_rowid d
    ∧ foreign_keys d1 = match txn d with
                        | Some _ => foreign_keys d
                        | None => true
                        end
    ∧ createTables s1 = (Ok true, s2)
    ∧ db s2 = db s1.
Proof.
  intros Hdb Hopen. do 3 eexists.
  split; [by apply createTables_open|].
  split; [reflexivity|]. simpl. do 4 (split; [reflexivity|]).
  split; [by eapply createTables_open|].
  simpl. by destruct (txn d).
Qed.

Lemma createTables_idempotent_witness :
  ∃ s1 d1 s2,
    createTables sample = (Ok true, s1)
    ∧ db s1 = Some d1
    ∧ data d1 = data sample_db ∧ txn d1 = txn sample_db
    ∧ last_insert_rowid d1 = last_insert_rowid sample_db
    ∧ foreign_keys d1 = match txn sample_db with
                        | Some _ => foreign_keys sample_db
                        | None => true
                        end
    ∧ createTables s1 = (Ok true, s2)
    ∧ db s2 = db s1.
Proof.
  apply (createTables_idempotent sample sample_db); by vm_compute.
Defined.

(** ** The primitives in every state *)

(** X4. On a Store without a connection, or with a closed one, [get], [all]
    and [run] fail with the TypeError of that condition, log it once under
    their own message, and change nothing else; [updateGoalProgress] stops at
    its read, so no write is attempted. *)
Theorem primitives_unusable {A B}
  (q1 : tables → option A) (q2 : tables → list B) (sql : Sqlite.statement)
  (goalId v : Z) (s : ProgressBuddyDB) (e : error) :
  connection_error s = Some e →
  (e = null_db ∨ e = not_open)
  ∧ get q1 s = (Err e, logged s "Error in get query:" e)
  ∧ all q2 s = (Err e, logged s "Error in all query:" e)
  ∧ run sql s = (Err e, logged s "Error in run query:" e)
  ∧ updateGoalProgress goalId v s
    = (Err e, logged s "Error in get query:" e).
Proof.
  intros He. split.
  { unfold connection_error in He. destruct (db s) as [d|].
    - destruct (open d); [done|]. injection He as <-. by right.
    - injection He as <-. by left. }
  split; [by apply get_unusable|]. split; [by apply all_unusable|].
  split; [by apply run_unusable|].
  unfold updateGoalProgress, bind. by rewrite (get_unusable _ s e He).
Qed.

Lemma primitives_unusable_witness :
  (null_db = null_db ∨ null_db = not_open)
  ∧ get (Sqlite.select_target_value 1) constructor
    = (Err null_db, logged constructor "Error in get query:" null_db)
  ∧ all Sqlite.select_activities constructor
    = (Err null_db, logged constructor "Error in all query:" null_db)
  ∧ run (Sqlite.delete_activity 1) constructor
    = (Err null_db, logged constructor "Error in run query:" null_db)
  ∧ updateGoalProgress 1 10 constructor
    = (Err null_db, logged constructor "Error in get query:" null_db).
Proof.
  apply (primitives_unusable (Sqlite.select_target_value 1)
           Sqlite.select_activities (Sqlite.delete_activity 1) 1 10
           constructor null_db).
  reflexivity.
Defined.

(** X5. In every state and for every statement, a [run] that fails leaves
    the Store as it was but for one "Error in run query:" line carrying the
    failure it re-raises: no row, counter, pending transaction or last
    insert id changes. A [run] that succeeds logs nothing. *)
Theorem run_failure_changes_nothing
  (sql : Sqlite.statement) (s : ProgressBuddyDB) :
  match run sql s with
  | (Ok _, s') => console s' = console s
  | (Err e, s') => s' = logged s "Error in run query:" e
  end.
Proof.
  destruct (connection_error s) as [e|] eqn:He.
  { by rewrite (run_unusable sql s e He). }
  destruct (connection_usable s He) as (d & Hdb & Hopen).
  destruct (sql (foreign_keys d) (data d)) as [[o t']|c] eqn:Hsql.
  - by rewrite (run_open_Ok s d Hdb Hopen sql o t' Hsql).
  - rewrite (run_open_Err s d Hdb Hopen sql c Hsql).
    unfold logged. by rewrite Hdb.
Qed.

(** X6. [get] and [all] never change the Store: when they return, the
    Store is the very one they were called on; when they fail, only their
    log line has been added. So the three list methods are read-only. *)
Theorem reads_change_nothing {A B}
  (q1 : tables → option A) (q2 : tables → list B) (s : ProgressBuddyDB) :
  match get q1 s with
  | (Ok _, s') => s' = s
  | (Err e, s') => s' = logged s "Error in get query:" e
  end
  ∧ match all q2 s with
    | (Ok _, s') => s' = s
    | (Err e, s') => s' = logged s "Error in all query:" e
    end
  ∧ db (getAllActivities s).2 = db s
  ∧ (∀ activityId, db (getLogsByActivity activityId s).2 = db s
                   ∧ db (getGoalsByActivity activityId s).2 = db s).
Proof.
  assert (Hall : ∀ C (q : tables → list C), db (all q s).2 = db s).
  { intros C q. destruct (connection_error s) as [e|] eqn:He.
    - by rewrite (all_unusable q s e He).
    - destruct (connection_usable s He) as (d & Hdb & Hopen).
      by rewrite (all_open s d Hdb Hopen). }
  destruct (connection_error s) as [e|] eqn:He.
  - rewrite (get_unusable q1 s e He), (all_unusable q2 s e He).
    repeat split; apply Hall.
  - destruct (connection_usable s He) as (d & Hdb & Hopen).
    rewrite (get_open s d Hdb Hopen), (all_open s d Hdb Hopen).
    repeat split; apply Hall.
Qed.

(** ** [close] on a connection, and shutdown *)

(** X7. [close] on a Store that has a connection never fails. It logs its
    line, rolls back a transaction left open (the stored tables are those
    from before BEGIN), and leaves the connection closed: every later
    statement is refused with "The database connection is not open" and
    changes nothing, and closing again is harmless. *)
Theorem close_connection (s : ProgressBuddyDB) (d : Database) :
  db s = Some d →
  ∃ s1,
    close s = (Ok (), s1)
    ∧ stored s1 = Some (default (data d) (txn d))
    ∧ txn <$> db s1 = Some None
    ∧ connection_error s1 = Some not_open
    ∧ console s1
      = console s ++ [console_log "✅ Database connection closed"]
    ∧ (∀ sql, ∃ s2, run sql s1 = (Err not_open, s2) ∧ stored s2 = stored s1)
    ∧ (∃ s3, close s1 = (Ok (), s3) ∧ db s3 = db s1).
Proof.
  intros Hdb. eexists.
  split.
  { unfold close, try_catch, bind, this_db, Database_close, print.
    rewrite Hdb. reflexivity. }
  simpl. do 4 (split; [reflexivity|]).
  split.
  - intros sql. eexists. split; [by apply run_unusable|reflexivity].
  - eexists. split; reflexivity.
Qed.

Lemma close_connection_witness :
  ∃ s1,
    close (begun sample sample_db) = (Ok (), s1)
    ∧ stored s1 = Some (data sample_db)
    ∧ txn <$> db s1 = Some None
    ∧ connection_error s1 = Some not_open
    ∧ console s1
      = console sample ++ [console_log "✅ Database connection closed"]
    ∧ (∀ sql, ∃ s2, run sql s1 = (Err not_open, s2) ∧ stored s2 = stored s1)
    ∧ (∃ s3, close s1 = (Ok (), s3) ∧ db s3 = db s1).
Proof.
  apply (close_connection (begun sample sample_db)
           {| open := open sample_db; foreign_keys := foreign_keys sample_db;
              data := data sample_db; txn := Some (data sample_db);
              last_insert_rowid := last_insert_rowid sample_db |}).
  reflexivity.
Defined.

(** X8. The SIGINT handler of [server.js] ends with exit code 0 whatever
    state the Store is in (never initialised, open, inside a transaction,
    already closed), and leaves no open connection and no open transaction
    behind; what a transaction had written is rolled back. *)
Theorem on_SIGINT_exits_0 (s : ProgressBuddyDB) :
  ∃ s',
    on_SIGINT s = (Ok 0, s')
    ∧ stored s' = (λ d, default (data d) (txn d)) <$> db s
    ∧ connection_error s' ≠ None
    ∧ ∀ d', db s' = Some d' → open d' = false ∧ txn d' = None.
Proof.
  unfold on_SIGINT, bind, try_catch, print, close, try_catch, this_db,
    Database_close.
  destruct s as [[d|] out]; simpl.
  - eexists. split; [reflexivity|]. simpl.
    split; [reflexivity|]. split; [done|]. by intros d' [= <-].
  - eexists. split; [reflexivity|]. simpl.
    split; [reflexivity|]. split; done.
Qed.

(** ** Helper facts: the filtered lists *)

Lemma select_logs_elem_of (t : tables) (aid k : Z) (l : log_row) :
  (k, l) ∈ Sqlite.select_logs aid t
  ↔ logs t !! k = Some l ∧ l_activity_id l = Some aid.
Proof.
  unfold Sqlite.select_logs.
  rewrite (proj1 (order_by_created_at_desc_spec l_created_at _)).
  rewrite elem_of_map_to_list. apply map_lookup_filter_Some.
Qed.

Lemma select_goals_elem_of (t : tables) (aid k : Z) (g : goal_row) :
  (k, g) ∈ Sqlite.select_goals aid t
  ↔ goals t !! k = Some g ∧ g_activity_id g = Some aid.
Proof.
  unfold Sqlite.select_goals.
  rewrite (proj1 (order_by_created_at_desc_spec g_created_at _)).
  rewrite elem_of_map_to_list. apply map_lookup_filter_Some.
Qed.

Lemma order_by_created_at_desc_NoDup {A} (created : A → timestamp)
  (m : gmap Z A) :
  NoDup (Sqlite.order_by_created_at_desc created (map_to_list m)).
Proof.
  rewrite (proj1 (order_by_created_at_desc_spec created _)).
  apply NoDup_map_to_list.
Qed.

(** ** Generated ids *)

(** X9. For a valid input on an open Store, the id [createActivity] returns
    is new: larger than every id in the table and than the AUTOINCREMENT
    counter, which it becomes. The insert adds one row and touches no other:
    every activity stored before is still there, and logs and goals are as
    they were. *)
Theorem createActivity_fresh_id
  (s : ProgressBuddyDB) (d : Database) (a : activity) (now : timestamp) :
  db s = Some d → open d = true → valid_activity a →
  ∃ r s1 t1,
    createActivity a now s = (Ok r, s1)
    ∧ stored s1 = Some t1
    ∧ activities (data d) !! id r = None
    ∧ (∀ k x, activities (data d) !! k = Some x →
              k < id r ∧ activities t1 !! k = Some x)
    ∧ seq_activities (data d) < id r
    ∧ seq_activities t1 = id r
    ∧ last_insert_rowid <$> db s1 = Some (id r)
    ∧ size (activities t1) = S (size (activities (data d)))
    ∧ logs t1 = logs (data d) ∧ goals t1 = goals (data d).
Proof.
  intros Hdb Hopen (Hn & Hs & Hm & Ht). unfold createActivity.
  erewrite (run_open_Ok s d Hdb Hopen); last first.
  { unfold Sqlite.insert_activity.
    rewrite (required_not_null a Hn Hs Hm Ht). reflexivity. }
  do 3 eexists. split; [reflexivity|]. split; [reflexivity|]. simpl.
  split; [apply next_rowid_fresh|].
  split.
  { intros k x Hk. pose proof (max_rowid_ge _ _ _ Hk) as Hle.
    assert (Hlt : k < Sqlite.next_rowid (seq_activities (data d))
                        (activities (data d))).
    { unfold Sqlite.next_rowid. lia. }
    split; [done|]. rewrite lookup_insert_ne; [done|lia]. }
  split; [unfold Sqlite.next_rowid; lia|].
  do 2 (split; [reflexivity|]).
  split; [|done]. apply map_size_insert_None, next_rowid_fresh.
Qed.

Lemma createActivity_fresh_id_witness :
  ∃ r s1 t1,
    createActivity run_5k 300 sample = (Ok r, s1)
    ∧ stored s1 = Some t1
    ∧ activities (data sample_db) !! id r = None
    ∧ (∀ k x, activities (data sample_db) !! k = Some x →
              k < id r ∧ activities t1 !! k = Some x)
    ∧ seq_activities (data sample_db) < id r
    ∧ seq_activities t1 = id r
    ∧ last_insert_rowid <$> db s1 = Some (id r)
    ∧ size (activities t1) = S (size (activities (data sample_db)))
    ∧ logs t1 = logs (data sample_db) ∧ goals t1 = goals (data sample_db).
Proof.
  apply (createActivity_fresh_id sample sample_db run_5k 300);
    [by vm_compute..|]. vm_compute. eauto 10.
Defined.

(** X10. An id is not handed out again after its row is deleted: create an
    activity, delete it, create another, and the second id is larger than
    the first. *)
Theorem createActivity_id_not_reused
  (s : ProgressBuddyDB) (d : Database) (a a' : activity)
  (now now' : timestamp) :
  db s = Some d → open d = true → valid_activity a → valid_activity a' →
  ∃ r1 s1 r2 s2 r3 s3,
    createActivity a now s = (Ok r1, s1)
    ∧ deleteActivity (id r1) s1 = (Ok r2, s2) ∧ changes r2 = 1
    ∧ createActivity a' now' s2 = (Ok r3, s3)
    ∧ id r1 < id r3.
Proof.
  intros Hdb Hopen (Hn & Hs & Hm & Ht) (Hn' & Hs' & Hm' & Ht').
  do 6 eexists.
  split.
  { unfold createActivity. eapply (run_open_Ok s d Hdb Hopen).
    unfold Sqlite.insert_activity.
    rewrite (required_not_null a Hn Hs Hm Ht). reflexivity. }
  simpl. split.
  { unfold deleteActivity. eapply run_open_Ok; [reflexivity..|].
    unfold Sqlite.delete_activity. simpl.
    rewrite lookup_insert_eq. reflexivity. }
  split; [reflexivity|]. split.
  { unfold createActivity. eapply run_open_Ok; [reflexivity..|].
    unfold Sqlite.insert_activity.
    rewrite (required_not_null a' Hn' Hs' Hm' Ht'). reflexivity. }
  simpl. unfold Sqlite.next_rowid at 2. lia.
Qed.

Lemma createActivity_id_not_reused_witness :
  ∃ r1 s1 r2 s2 r3 s3,
    createActivity run_5k 300 sample = (Ok r1, s1)
    ∧ deleteActivity (id r1) s1 = (Ok r2, s2) ∧ changes r2 = 1
    ∧ createActivity run_5k 301 s2 = (Ok r3, s3)
    ∧ id r1 < id r3.
Proof.
  apply (createActivity_id_not_reused sample sample_db run_5k run_5k 300 301);
    [by vm_compute..| |]; vm_compute; eauto 10.
Defined.

(** ** Goals and logs: creation and listing *)



(** X12. [createGoal] rejects a record without [activity_id] or without
    [target_value] on the NOT NULL constraint, and, with foreign keys
    enabled, a complete record whose [activity_id] names no stored activity
    on the foreign key. Either way the failure is logged and re-raised and
    the database is as it was. *)
Theorem createGoal_rejected
  (s : ProgressBuddyDB) (d : Database) (g : goal) (now : timestamp) :
  db s = Some d → open d = true →
  (goal_activity_id g = None ∨ target_value g = None →
   createGoal g now s
   = (Err (SqliteError SQLITE_CONSTRAINT_NOTNULL),
      logged s "Error in run query:"
             (SqliteError SQLITE_CONSTRAINT_NOTNULL)))
  ∧ (∀ aid t,
     foreign_keys d = true →
     goal_activity_id g = Some aid → target_value g = Some t →
     activities (data d) !! aid = None →
     createGoal g now s
     = (Err (SqliteError SQLITE_CONSTRAINT_FOREIGNKEY),
        logged s "Error in run query:"
               (SqliteError SQLITE_CONSTRAINT_FOREIGNKEY))).
Proof.
  intros Hdb Hopen. unfold createGoal, logged. rewrite Hdb. split.
  - intros Hnull. apply (run_open_Err s d Hdb Hopen).
    unfold Sqlite.insert_goal.
    destruct Hnull as [-> | ->]; [done|]. by destruct (goal_activity_id g).
  - intros aid t Hfk Haid Ht Hnone. apply (run_open_Err s d Hdb Hopen).
    unfold Sqlite.insert_goal, Sqlite.references_activity.
    rewrite Haid, Ht, Hfk, Hnone.
    by rewrite bool_decide_eq_false_2 by (by intros [? ?]).
Qed.

Lemma createGoal_rejected_witness :
  createGoal {| goal_activity_id := Some 1; target_value := None;
                target_date := None |} 300 sample
  = (Err (SqliteError SQLITE_CONSTRAINT_NOTNULL),
     logged sample "Error in run query:"
            (SqliteError SQLITE_CONSTRAINT_NOTNULL))
  ∧ createGoal {| goal_activity_id := Some 999; target_value := Some 10;
                  target_date := None |} 300 sample
    = (Err (SqliteError SQLITE_CONSTRAINT_FOREIGNKEY),
       logged sample "Error in run query:"
              (SqliteError SQLITE_CONSTRAINT_FOREIGNKEY)).
Proof.
  split.
  - apply (proj1 (createGoal_rejected sample sample_db
                    {| goal_activity_id := Some 1; target_value := None;
                       target_date := None |} 300 eq_refl eq_refl)).
    by right.
  - apply (proj2 (createGoal_rejected sample sample_db
                    {| goal_activity_id := Some 999; target_value := Some 10;
                       target_date := None |} 300 eq_refl eq_refl)
             999 10); by vm_compute.
Defined.

(** X13. [createLog] for a stored activity, with a text, succeeds under a
    new id and stores the record as given; the logs stored before stay, and
    [getLogsByActivity] for the owner then lists the new log. *)
Theorem createLog_listed
  (s : ProgressBuddyDB) (d : Database) (l : log) (now : timestamp)
  (aid : Z) (txt : string) :
  db s = Some d → open d = true →
  log_activity_id l = Some aid → text l = Some txt →
  is_Some (activities (data d) !! aid) →
  ∃ r s1 t1 row rows,
    createLog l now s = (Ok r, s1) ∧ changes r = 1
    ∧ stored s1 = Some t1
    ∧ logs (data d) !! id r = None
    ∧ logs t1 !! id r = Some row
    ∧ l_activity_id row = Some aid ∧ l_text row = Some txt
    ∧ l_metrics row = metrics l ∧ l_created_at row = now
    ∧ (∀ k x, logs (data d) !! k = Some x → logs t1 !! k = Some x)
    ∧ getLogsByActivity aid s1 = (Ok rows, s1)
    ∧ (id r, row) ∈ rows.
Proof.
  intros Hdb Hopen Haid Htxt Hact. unfold createLog.
  erewrite (run_open_Ok s d Hdb Hopen); last first.
  { unfold Sqlite.insert_log, Sqlite.references_activity.
    rewrite Haid, Htxt, (bool_decide_eq_true_2 _ Hact), andb_false_r.
    reflexivity. }
  do 5 eexists. split; [reflexivity|]. split; [done|].
  split; [reflexivity|]. simpl.
  split; [apply next_rowid_fresh|].
  split; [apply lookup_insert_eq|]. simpl.
  do 4 (split; [done|]).
  split.
  { intros k x Hk. rewrite lookup_insert_ne; [done|].
    intros <-. by rewrite next_rowid_fresh in Hk. }
  split. { unfold getLogsByActivity. by erewrite all_open. }
  simpl. apply select_logs_elem_of. simpl.
  split; [apply lookup_insert_eq|done].
Qed.

Lemma createLog_listed_witness :
  ∃ r s1 t1 row rows,
    createLog {| log_activity_id := Some 1; text := Some "second run";
                 metrics := Some "6km" |} 300 sample = (Ok r, s1)
    ∧ changes r = 1
    ∧ stored s1 = Some t1
    ∧ logs (data sample_db) !! id r = None
    ∧ logs t1 !! id r = Some row
    ∧ l_activity_id row = Some 1 ∧ l_text row = Some "second run"
    ∧ l_metrics row = Some "6km" ∧ l_created_at row = 300
    ∧ (∀ k x, logs (data sample_db) !! k = Some x → logs t1 !! k = Some x)
    ∧ getLogsByActivity 1 s1 = (Ok rows, s1)
    ∧ (id r, row) ∈ rows.
Proof.
  apply (createLog_listed sample sample_db
           {| log_activity_id := Some 1; text := Some "second run";
              metrics := Some "6km" |} 300 1 "second run");
    [by vm_compute..|]. vm_compute. eauto.
Defined.

(** X14. On an open Store, [getLogsByActivity] and [getGoalsByActivity]
    return exactly the stored logs, respectively goals, whose [activity_id]
    is the one asked for, each once, ordered by [created_at] with the newest
    first, and leave the Store as it was. For an id that owns none, stored
    activity or not, the result is the empty list and not a failure. *)
Theorem lists_by_activity
  (s : ProgressBuddyDB) (d : Database) (activityId : Z) :
  db s = Some d → open d = true →
  ∃ ls gs,
    getLogsByActivity activityId s = (Ok ls, s)
    ∧ getGoalsByActivity activityId s = (Ok gs, s)
    ∧ (∀ k l, (k, l) ∈ ls
              ↔ logs (data d) !! k = Some l
                ∧ l_activity_id l = Some activityId)
    ∧ (∀ k g, (k, g) ∈ gs
              ↔ goals (data d) !! k = Some g
                ∧ g_activity_id g = Some activityId)
    ∧ NoDup ls ∧ NoDup gs
    ∧ StronglySorted (Sqlite.newer_first l_created_at) ls
    ∧ StronglySorted (Sqlite.newer_first g_created_at) gs
    ∧ ((∀ k l, logs (data d) !! k = Some l →
               l_activity_id l ≠ Some activityId) → ls = [])
    ∧ ((∀ k g, goals (data d) !! k = Some g →
               g_activity_id g ≠ Some activityId) → gs = []).
Proof.
  intros Hdb Hopen. do 2 eexists.
  unfold getLogsByActivity, getGoalsByActivity.
  rewrite !(all_open s d Hdb Hopen).
  do 2 (split; [reflexivity|]).
  split; [intros; apply select_logs_elem_of|].
  split; [intros; apply select_goals_elem_of|].
  split; [apply order_by_created_at_desc_NoDup|].
  split; [apply order_by_created_at_desc_NoDup|].
  split; [apply order_by_created_at_desc_spec|].
  split; [apply order_by_created_at_desc_spec|].
  split.
  - intros Hnone. apply elem_of_nil_inv. intros [k l] Hin.
    apply select_logs_elem_of in Hin as [Hk Hl]. by eapply Hnone.
  - intros Hnone. apply elem_of_nil_inv. intros [k g] Hin.
    apply select_goals_elem_of in Hin as [Hk Hg]. by eapply Hnone.
Qed.

Lemma lists_by_activity_witness :
  ∃ ls gs,
    getLogsByActivity 1 sample = (Ok ls, sample)
    ∧ getGoalsByActivity 1 sample = (Ok gs, sample)
    ∧ (∀ k l, (k, l) ∈ ls
              ↔ logs (data sample_db) !! k = Some l
                ∧ l_activity_id l = Some 1)
    ∧ (∀ k g, (k, g) ∈ gs
              ↔ goals (data sample_db) !! k = Some g
                ∧ g_activity_id g = Some 1)
    ∧ NoDup ls ∧ NoDup gs
    ∧ StronglySorted (Sqlite.newer_first l_created_at) ls
    ∧ StronglySorted (Sqlite.newer_first g_created_at) gs
    ∧ ((∀ k l, logs (data sample_db) !! k = Some l →
               l_activity_id l ≠ Some 1) → ls = [])
    ∧ ((∀ k g, goals (data sample_db) !! k = Some g →
               g_activity_id g ≠ Some 1) → gs = []).
Proof.
  apply (lists_by_activity sample sample_db 1); by vm_compute.
Defined.

(** ** Deleting, composed with the lists *)

(** X15. After [deleteActivity] of a stored activity, with foreign keys
    enabled, [getLogsByActivity] and [getGoalsByActivity] for that id return
    the empty list and [getAllActivities] no longer lists the id. *)
Theorem deleteActivity_then_lists_empty
  (s : ProgressBuddyDB) (d : Database) (id : Z) :
  db s = Some d → open d = true → foreign_keys d = true →
  is_Some (activities (data d) !! id) →
  ∃ r s1 rows,
    deleteActivity id s = (Ok r, s1)
    ∧ getLogsByActivity id s1 = (Ok [], s1)
    ∧ getGoalsByActivity id s1 = (Ok [], s1)
    ∧ getAllActivities s1 = (Ok rows, s1)
    ∧ ∀ x, (id, x) ∉ rows.
Proof.
  intros Hdb Hopen Hfk [old Hold]. unfold deleteActivity.
  erewrite (run_open_Ok s d Hdb Hopen); last first.
  { unfold Sqlite.delete_activity. rewrite Hold, Hfk. reflexivity. }
  do 3 eexists. split; [reflexivity|].
  unfold getLogsByActivity, getGoalsByActivity, getAllActivities.
  erewrite !all_open by reflexivity. simpl.
  split; [|split; [|split; [reflexivity|]]].
  - f_equal. f_equal. apply elem_of_nil_inv. intros [k l] Hin.
    apply select_logs_elem_of in Hin as [Hk Hl]. simpl in Hk.
    by apply map_lookup_filter_Some in Hk as [_ ?].
  - f_equal. f_equal. apply elem_of_nil_inv. intros [k g] Hin.
    apply select_goals_elem_of in Hin as [Hk Hg]. simpl in Hk.
    by apply map_lookup_filter_Some in Hk as [_ ?].
  - intros x Hin. apply select_activities_elem_of in Hin. simpl in Hin.
    by rewrite lookup_delete_eq in Hin.
Qed.

Lemma deleteActivity_then_lists_empty_witness :
  ∃ r s1 rows,
    deleteActivity 1 sample = (Ok r, s1)
    ∧ getLogsByActivity 1 s1 = (Ok [], s1)
    ∧ getGoalsByActivity 1 s1 = (Ok [], s1)
    ∧ getAllActivities s1 = (Ok rows, s1)
    ∧ ∀ x, (1, x) ∉ rows.
Proof.
  apply (deleteActivity_then_lists_empty sample sample_db 1);
    [by vm_compute..|vm_compute; eauto].
Defined.

(** X16. Deleting the same activity twice: the first [deleteActivity]
    reports one affected row, the second reports none, does not fail, and
    leaves the Store as the first left it. *)
Theorem deleteActivity_twice (s : ProgressBuddyDB) (d : Database) (id : Z) :
  db s = Some d → open d = true →
  is_Some (activities (data d) !! id) →
  ∃ r1 s1 r2,
    deleteActivity id s = (Ok r1, s1) ∧ changes r1 = 1
    ∧ deleteActivity id s1 = (Ok r2, s1) ∧ changes r2 = 0.
Proof.
  intros Hdb Hopen [old Hold]. unfold deleteActivity.
  erewrite (run_open_Ok s d Hdb Hopen); last first.
  { unfold Sqlite.delete_activity. rewrite Hold. reflexivity. }
  exists {| id := last_insert_rowid d; changes := 1 |}. eexists.
  exists {| id := last_insert_rowid d; changes := 0 |}.
  split; [reflexivity|]. split; [done|].
  split; [|reflexivity].
  eapply (run_open_same _
            {| open := true; foreign_keys := foreign_keys d; data := _;
               txn := txn d; last_insert_rowid := last_insert_rowid d |});
    [reflexivity..|].
  unfold Sqlite.delete_activity. simpl. by rewrite lookup_delete_eq.
Qed.

Lemma deleteActivity_twice_witness :
  ∃ r1 s1 r2,
    deleteActivity 1 sample = (Ok r1, s1) ∧ changes r1 = 1
    ∧ deleteActivity 1 s1 = (Ok r2, s1) ∧ changes r2 = 0.
Proof.
  apply (deleteActivity_twice sample sample_db 1);
    [by vm_compute..|vm_compute; eauto].
Defined.

(** ** [updateGoalProgress]: what it writes and what it leaves *)

Lemma updateGoalProgress_open
  (s : ProgressBuddyDB) (d : Database) (goalId v : Z) (g : goal_row) :
  db s = Some d → open d = true →
  goals (data d) !! goalId = Some g →
  updateGoalProgress goalId v s
  = (Ok {| id := last_insert_rowid d; changes := 1 |},
     {| db := Some
          {| open := true; foreign_keys := foreign_keys d;
             data :=
               {| activities := activities (data d); logs := logs (data d);
                  goals :=
                    <[goalId :=
                        {| g_activity_id := g_activity_id g;
                           g_target_value := g_target_value g;
                           g_current_value := v;
                           g_target_date := g_target_date g;
                           g_achieved :=
                             as_integer (js_ge v (g_target_value g));
                           g_created_at := g_created_at g |}]>
                      (goals (data d));
                  seq_activities := seq_activities (data d);
                  seq_logs := seq_logs (data d);
                  seq_goals := seq_goals (data d) |};
             txn := txn d; last_insert_rowid := last_insert_rowid d |};
        console := console s |}).
Proof.
  intros Hdb Hopen Hg. unfold updateGoalProgress, bind.
  rewrite (get_open s d Hdb Hopen).
  unfold Sqlite.select_target_value. rewrite Hg. simpl.
  erewrite (run_open_Ok s d Hdb Hopen); last first.
  { unfold Sqlite.update_goal. rewrite Hg. reflexivity. }
  reflexivity.
Qed.

(** X17. [updateGoalProgress] on a stored goal reports one affected row and
    writes two columns of that one row: the goal's owner, target, target
    date and creation time are kept, every other goal, every activity and
    log and the id counters are untouched, a pending transaction stays
    pending, and nothing is logged. *)
Theorem updateGoalProgress_frame
  (s : ProgressBuddyDB) (d : Database) (goalId v : Z) (g : goal_row) :
  db s = Some d → open d = true →
  goals (data d) !! goalId = Some g →
  ∃ r s1 d1 g',
    updateGoalProgress goalId v s = (Ok r, s1) ∧ changes r = 1
    ∧ db s1 = Some d1 ∧ console s1 = console s
    ∧ txn d1 = txn d ∧ open d1 = true
    ∧ goals (data d1) !! goalId = Some g'
    ∧ g_current_value g' = v
    ∧ g_activity_id g' = g_activity_id g
    ∧ g_target_value g' = g_target_value g
    ∧ g_target_date g' = g_target_date g
    ∧ g_created_at g' = g_created_at g
    ∧ (∀ k, k ≠ goalId → goals (data d1) !! k = goals (data d) !! k)
    ∧ activities (data d1) = activities (data d)
    ∧ logs (data d1) = logs (data d)
    ∧ seq_activities (data d1) = seq_activities (data d)
    ∧ seq_logs (data d1) = seq_logs (data d)
    ∧ seq_goals (data d1) = seq_goals (data d).
Proof.
  intros Hdb Hopen Hg.
  rewrite (updateGoalProgress_open s d goalId v g Hdb Hopen Hg).
  do 4 eexists. split; [reflexivity|]. split; [done|].
  split; [reflexivity|]. simpl. do 3 (split; [done|]).
  split; [apply lookup_insert_eq|]. simpl. do 5 (split; [done|]).
  split; [|done]. intros k Hk. by apply lookup_insert_ne.
Qed.

Lemma updateGoalProgress_frame_witness :
  ∃ r s1 d1 g',
    updateGoalProgress 1 7 sample = (Ok r, s1) ∧ changes r = 1
    ∧ db s1 = Some d1 ∧ console s1 = console sample
    ∧ txn d1 = txn sample_db ∧ open d1 = true
    ∧ goals (data d1) !! 1 = Some g'
    ∧ g_current_value g' = 7
    ∧ g_activity_id g' = Some 1
    ∧ g_target_value g' = Some 10
    ∧ g_target_date g' = None
    ∧ g_created_at g' = 102
    ∧ (∀ k, k ≠ 1 → goals (data d1) !! k = goals (data sample_db) !! k)
    ∧ activities (data d1) = activities (data sample_db)
    ∧ logs (data d1) = logs (data sample_db)
    ∧ seq_activities (data d1) = seq_activities (data sample_db)
    ∧ seq_logs (data d1) = seq_logs (data sample_db)
    ∧ seq_goals (data d1) = seq_goals (data sample_db).
Proof.
  apply (updateGoalProgress_frame sample sample_db 1 7
           {| g_activity_id := Some 1; g_target_value := Some 10;
              g_current_value := 0; g_target_date := None;
              g_achieved := 0; g_created_at := 102 |}); by vm_compute.
Defined.

(** X18. Of two successive progress updates of one goal the last wins: the
    Store after [updateGoalProgress goalId v1] and then [updateGoalProgress
    goalId v2] is the Store after the second call alone, and the second call
    returns the same result. In particular the flag follows the value down
    again: it is not kept once set. *)
Theorem updateGoalProgress_last_wins
  (s : ProgressBuddyDB) (d : Database) (goalId v1 v2 : Z) (g : goal_row) :
  db s = Some d → open d = true →
  goals (data d) !! goalId = Some g →
  ∃ r1 s1 r2 s2,
    updateGoalProgress goalId v1 s = (Ok r1, s1)
    ∧ updateGoalProgress goalId v2 s1 = (Ok r2, s2)
    ∧ updateGoalProgress goalId v2 s = (Ok r2, s2).
Proof.
  intros Hdb Hopen Hg. do 4 eexists.
  split; [by apply updateGoalProgress_open|].
  split.
  - eapply updateGoalProgress_open; [reflexivity..|]. simpl.
    apply lookup_insert_eq.
  - rewrite (updateGoalProgress_open s d goalId v2 g Hdb Hopen Hg).
    simpl. by rewrite insert_insert_eq.
Qed.

Lemma updateGoalProgress_last_wins_witness :
  ∃ r1 s1 r2 s2,
    updateGoalProgress 1 10 sample = (Ok r1, s1)
    ∧ updateGoalProgress 1 9 s1 = (Ok r2, s2)
    ∧ updateGoalProgress 1 9 sample = (Ok r2, s2).
Proof.
  apply (updateGoalProgress_last_wins sample sample_db 1 10 9
           {| g_activity_id := Some 1; g_target_value := Some 10;
              g_current_value := 0; g_target_date := None;
              g_achieved := 0; g_created_at := 102 |}); by vm_compute.
Defined.

(** ** [transaction]: edge cases and ids *)

Lemma transaction_not_begun_witness :
  transaction (createActivity run_5k 300) constructor
  = (Err null_db, constructor)
  ∧ ∃ s', transaction (createActivity run_5k 300) (begun sample sample_db)
          = (Err (SqliteError SQLITE_ERROR), s')
          ∧ stored s' = Some (data sample_db)
          ∧ txn <$> db s' = Some None.
Proof.
  split.
  - apply (proj1 (transaction_not_begun (createActivity run_5k 300)
                    constructor)).
    reflexivity.
  - apply (proj2 (transaction_not_begun (createActivity run_5k 300)
                    (begun sample sample_db))
             {| open := open sample_db;
                foreign_keys := foreign_keys sample_db;
                data := data sample_db; txn := Some (data sample_db);
                last_insert_rowid := last_insert_rowid sample_db |}
             (data sample_db)); reflexivity.
Defined.

(** X21. A rolled-back transaction leaves no trace in the ids: when a unit
    of work creates an activity and then raises, the id it was given inside
    the transaction is given again to the next activity created, and that
    next [createActivity] stores exactly what it would have stored had the
    transaction never run. *)
Theorem rollback_restores_ids
  (s : ProgressBuddyDB) (d : Database) (a a' : activity)
  (now now' : timestamp) (e : error) :
  db s = Some d → open d = true → txn d = None →
  valid_activity a → valid_activity a' →
  ∃ r_in s_in s2 r s3 r0 s0,
    createActivity a now (begun s d) = (Ok r_in, s_in)
    ∧ transaction (createActivity a now;; throw (A:=unit) e) s = (Err e, s2)
    ∧ createActivity a' now' s2 = (Ok r, s3)
    ∧ id r = id r_in
    ∧ createActivity a' now' s = (Ok r0, s0)
    ∧ r = r0 ∧ s3 = s0.
Proof.
  intros Hdb Hopen Htxn (Hn & Hs & Hm & Ht) (Hn' & Hs' & Hm' & Ht').
  assert (Hin : ∀ fk t,
    Sqlite.insert_activity a now fk t
    = Ok ({| Sqlite.inserted :=
               Some (Sqlite.next_rowid (seq_activities t) (activities t));
             Sqlite.changed := 1 |},
          {| activities :=
               <[Sqlite.next_rowid (seq_activities t) (activities t) :=
                   {| a_name := name a; a_description := description a;
                      a_specific := specific a;
                      a_measurable := measurable a;
                      a_achievable := achievable a;
                      a_relevant := relevant a; a_timebound := timebound a;
                      a_buddy_email := buddy_email a; a_completed := 0;
                      a_created_at := now; a_updated_at := now |}]>
                 (activities t);
             logs := logs t; goals := goals t;
             seq_activities :=
               Sqlite.next_rowid (seq_activities t) (activities t);
             seq_logs := seq_logs t; seq_goals := seq_goals t |})).
  { intros fk t. unfold Sqlite.insert_activity.
    by rewrite (required_not_null a Hn Hs Hm Ht). }
  assert (Hcreate_in :
    createActivity a now (begun s d)
    = (Ok _, _)) by
    (unfold createActivity;
     apply (run_open_Ok (begun s d) _ eq_refl Hopen _ _ _ (Hin _ _))).
  do 7 eexists. split; [exact Hcreate_in|].
  split.
  { unfold transaction, try_catch, bind.
    rewrite (begin_open s d Hdb Hopen Htxn), Hcreate_in.
    unfold throw, this_db, exec. simpl. reflexivity. }
  split.
  { unfold createActivity. eapply run_open_Ok; [reflexivity..|].
    unfold Sqlite.insert_activity.
    rewrite (required_not_null a' Hn' Hs' Hm' Ht'). reflexivity. }
  split; [reflexivity|].
  split.
  { unfold createActivity. eapply (run_open_Ok s d Hdb Hopen).
    unfold Sqlite.insert_activity.
    rewrite (required_not_null a' Hn' Hs' Hm' Ht'). reflexivity. }
  simpl. by rewrite Htxn.
Qed.

Lemma rollback_restores_ids_witness :
  ∃ r_in s_in s2 r s3 r0 s0,
    createActivity run_5k 300 (begun sample sample_db) = (Ok r_in, s_in)
    ∧ transaction (createActivity run_5k 300;;
                   throw (A:=unit) (Thrown "boom")) sample
      = (Err (Thrown "boom"), s2)
    ∧ createActivity run_5k 301 s2 = (Ok r, s3)
    ∧ id r = id r_in
    ∧ createActivity run_5k 301 sample = (Ok r0, s0)
    ∧ r = r0 ∧ s3 = s0.
Proof.
  apply (rollback_restores_ids sample sample_db run_5k run_5k 300 301
           (Thrown "boom")); [by vm_compute..| |]; vm_compute; eauto 10.
Defined.

(** X22. The [id] in the result of a method that does not insert is the
    connection's last inserted row id, not the id the method was given:
    after a successful [createActivity], every following [deleteActivity],
    [updateActivity] and [updateGoalProgress] that returns, returns the id of
    that created activity, whatever row it addressed. *)
Theorem result_id_is_last_insert
  (s : ProgressBuddyDB) (d : Database) (a : activity) (now : timestamp) :
  db s = Some d → open d = true → valid_activity a →
  ∃ r1 s1,
    createActivity a now s = (Ok r1, s1)
    ∧ (∀ k, ∃ r s', deleteActivity k s1 = (Ok r, s') ∧ id r = id r1)
    ∧ (∀ k a' now' r s',
         updateActivity k a' now' s1 = (Ok r, s') → id r = id r1)
    ∧ (∀ goalId v r s',
         updateGoalProgress goalId v s1 = (Ok r, s') → id r = id r1).
Proof.
  intros Hdb Hopen (Hn & Hs & Hm & Ht).
  assert (Hid : ∀ (sql : Sqlite.statement) s1 d1 r s',
    db s1 = Some d1 → open d1 = true →
    (∀ fk t o t', sql fk t = Ok (o, t') → Sqlite.inserted o = None) →
    run sql s1 = (Ok r, s') → id r = last_insert_rowid d1).
  { intros sql s1 d1 r s' Hdb1 Hopen1 Hnone.
    destruct (sql (foreign_keys d1) (data d1)) as [[o t']|c] eqn:Hsql.
    - rewrite (run_open_Ok s1 d1 Hdb1 Hopen1 sql o t' Hsql).
      intros [= <- <-]. simpl. by rewrite (Hnone _ _ _ _ Hsql).
    - by rewrite (run_open_Err s1 d1 Hdb1 Hopen1 sql c Hsql). }
  assert (Hcreate : ∃ r1 s1 d1,
    createActivity a now s = (Ok r1, s1)
    ∧ db s1 = Some d1 ∧ open d1 = true ∧ last_insert_rowid d1 = id r1).
  { do 3 eexists. split.
    - unfold createActivity. eapply (run_open_Ok s d Hdb Hopen).
      unfold Sqlite.insert_activity.
      rewrite (required_not_null a Hn Hs Hm Ht). reflexivity.
    - done. }
  destruct Hcreate as (r1 & s1 & d1 & Hcreate & Hdb1 & Hopen1 & Hlast).
  exists r1, s1. split; [exact Hcreate|]. rewrite <- Hlast.
  split; [|split].
  - intros k. unfold deleteActivity.
    destruct (Sqlite.delete_activity k (foreign_keys d1) (data d1))
      as [[o t']|c] eqn:Hsql.
    + rewrite (run_open_Ok s1 d1 Hdb1 Hopen1 _ o t' Hsql).
      do 2 eexists. split; [reflexivity|]. simpl.
      revert Hsql. unfold Sqlite.delete_activity.
      by destruct (activities (data d1) !! k); intros [= <- <-].
    + revert Hsql. unfold Sqlite.delete_activity.
      by destruct (activities (data d1) !! k).
  - intros k a' now' r s' Hupd.
    eapply (Hid _ _ _ _ _ Hdb1 Hopen1); [|exact Hupd].
    intros fk t o t'. unfold Sqlite.update_activity.
    destruct (activities t !! k); [|by intros [= <- <-]].
    by destruct (_ || _); intros [= <- <-].
  - intros goalId v r s'. unfold updateGoalProgress, bind.
    rewrite (get_open s1 d1 Hdb1 Hopen1).
    destruct (Sqlite.select_target_value goalId _) as [target|]; [|done].
    simpl. intros Hupd.
    eapply (Hid _ _ _ _ _ Hdb1 Hopen1); [|exact Hupd].
    intros fk t o t'. unfold Sqlite.update_goal.
    by destruct (goals t !! goalId); intros [= <- <-].
Qed.

Lemma result_id_is_last_insert_witness :
  ∃ r1 s1,
    createActivity run_5k 300 sample = (Ok r1, s1)
    ∧ (∀ k, ∃ r s', deleteActivity k s1 = (Ok r, s') ∧ id r = id r1)
    ∧ (∀ k a' now' r s',
         updateActivity k a' now' s1 = (Ok r, s') → id r = id r1)
    ∧ (∀ goalId v r s',
         updateGoalProgress goalId v s1 = (Ok r, s') → id r = id r1).
Proof.
  apply (result_id_is_last_insert sample sample_db run_5k 300);
    [by vm_compute..|]. vm_compute. eauto 10.
Defined.

(** ** Invariants of the stored tables *)

(** What holds in every view survives the driver calls that only move
    between the views. *)
Section views.
Variable P : tables → Prop.

Lemma stmt_run_view (sql : Sqlite.statement) (d : Database)
  (r : result error run_result) (d' : Database) :
  (∀ t o t', P t → sql (foreign_keys d) t = Ok (o, t') → P t') →
  in_every_view P d → stmt_run sql d = (r, d') → in_every_view P d'.
Proof.
  intros Hsql [Hdata Hsaved]. unfold stmt_run.
  destruct (open d); [|by intros [= <- <-]].
  destruct (sql _ _) as [[o t']|c] eqn:Hrun; intros [= <- <-]; [|done].
  split; simpl; [by eapply Hsql|done].
Qed.

Lemma exec_view (sql : script) (d : Database) (r : result error unit)
  (d' : Database) :
  in_every_view P d → exec sql d = (r, d') → in_every_view P d'.
Proof.
  intros Hview. unfold exec.
  destruct (open d); [|by intros [= <- <-]].
  pose proof Hview as [Hdata Hsaved].
  destruct sql; [by intros [= <- <-]|..];
    destruct (txn d) as [saved|] eqn:Htxn; intros [= <- <-]; try done;
    split; simpl; try done; try by intros ? [= <-].
  by apply Hsaved.
Qed.

Lemma Database_close_view (d : Database) (r : result error unit)
  (d' : Database) :
  in_every_view P d → Database_close d = (r, d') → in_every_view P d'.
Proof.
  intros [Hdata Hsaved] [= <- <-]. split; simpl; [|done].
  destruct (txn d) as [saved|]; simpl; [by apply Hsaved|done].
Qed.

Lemma init_view (file : option tables) :
  opens_with P (Init file) →
  preserves (holds (in_every_view P)) (init file).
Proof.
  intros Hfile s r s' Hview. destruct file as [t|].
  - intros [= <- <-] d [= <-]. by split.
  - intros [= <- <-] d Hd. by apply Hview.
Qed.

End views.

Lemma stmt_run_keeps_foreign_keys (sql : Sqlite.statement) (d : Database)
  (r : result error run_result) (d' : Database) :
  stmt_run sql d = (r, d') → foreign_keys d' = foreign_keys d.
Proof.
  unfold stmt_run. destruct (open d); [|by intros [= <- <-]].
  by destruct (sql _ _) as [[o t']|c]; intros [= <- <-].
Qed.

Lemma exec_keeps_foreign_keys (sql : script) (d : Database)
  (r : result error unit) (d' : Database) :
  exec sql d = (r, d') → foreign_keys d' = foreign_keys d.
Proof.
  unfold exec. destruct (open d); [|by intros [= <- <-]].
  destruct sql; [by intros [= <- <-]|..];
    by destruct (txn d); intros [= <- <-].
Qed.

(** The calls of [perform], once each statement is known to keep a
    property of the connection. *)
Lemma perform_holds (J : Database → Prop) :
  (∀ a now d r d',
     J d → stmt_run (Sqlite.insert_activity a now) d = (r, d') → J d') →
  (∀ a now id d r d',
     J d → stmt_run (Sqlite.update_activity a now id) d = (r, d') → J d') →
  (∀ id d r d',
     J d → stmt_run (Sqlite.delete_activity id) d = (r, d') → J d') →
  (∀ l now d r d',
     J d → stmt_run (Sqlite.insert_log l now) d = (r, d') → J d') →
  (∀ g now d r d',
     J d → stmt_run (Sqlite.insert_goal g now) d = (r, d') → J d') →
  (∀ goalId v, preserves (holds J) (updateGoalProgress goalId v)) →
  ∀ c, preserves (holds J) (perform c).
Proof.
  intros Hia Hua Hda Hil Hig Hug c.
  destruct c; simpl; apply preserves_bind;
    try (intros; apply preserves_ret);
    try apply preserves_all; try apply Hug; apply preserves_run; eauto.
Qed.

(** *** Required columns of logs and goals *)

Lemma map_Forall_filter_keeps {A} (Q : Z → A → Prop) (F : Z * A → Prop)
  `{!∀ kv, Decision (F kv)} (m : gmap Z A) :
  map_Forall Q m → map_Forall Q (filter F m).
Proof.
  intros Hm k x Hk. apply map_lookup_filter_Some in Hk as [Hk _].
  by apply Hm in Hk.
Qed.

Lemma children_present_statement (sql : Sqlite.statement) :
  (∃ a now, sql = Sqlite.insert_activity a now)
  ∨ (∃ a now id, sql = Sqlite.update_activity a now id)
  ∨ (∃ id, sql = Sqlite.delete_activity id)
  ∨ (∃ l now, sql = Sqlite.insert_log l now)
  ∨ (∃ g now, sql = Sqlite.insert_goal g now)
  ∨ (∃ v achieved id, sql = Sqlite.update_goal v achieved id) →
  ∀ fk t o t', children_present t → sql fk t = Ok (o, t') →
               children_present t'.
Proof.
  intros Hsql fk t o t' [Hlogs Hgoals].
  destruct Hsql as [(a & now & ->)|[(a & now & id & ->)|[(id & ->)|
    [(l & now & ->)|[(g & now & ->)|(v & achieved & id & ->)]]]]].
  - unfold Sqlite.insert_activity.
    by destruct (_ || _); intros [= <- <-].
  - unfold Sqlite.update_activity.
    destruct (activities t !! id); [|by intros [= <- <-]].
    by destruct (_ || _); intros [= <- <-].
  - unfold Sqlite.delete_activity.
    destruct (activities t !! id); intros [= <- <-]; [|done].
    split; simpl; destruct fk; try done; by apply map_Forall_filter_keeps.
  - unfold Sqlite.insert_log.
    destruct (log_activity_id l) eqn:Haid, (text l) eqn:Htxt; try done.
    destruct (fk && _); intros [= <- <-]. split; simpl; [|done].
    apply map_Forall_insert_2; [|done]. simpl. eauto.
  - unfold Sqlite.insert_goal.
    destruct (goal_activity_id g) eqn:Haid, (target_value g) eqn:Ht;
      try done.
    destruct (fk && _); intros [= <- <-]. split; simpl; [done|].
    apply map_Forall_insert_2; [|done]. simpl. eauto.
  - unfold Sqlite.update_goal.
    destruct (goals t !! id) as [old|] eqn:Hold; intros [= <- <-]; [|done].
    split; simpl; [done|].
    apply map_Forall_insert_2; [|done]. simpl. by apply (Hgoals id).
Qed.

Lemma steps_children_present (ops : list operation) :
  Forall (opens_with children_present) ops →
  holds (in_every_view children_present) (steps ops constructor).
Proof.
  intros Hops.
  apply (steps_holds (in_every_view children_present)
           (opens_with children_present)); try done.
  - apply perform_holds; intros; try (eapply stmt_run_view; [|done..]);
      try (intros ???; eapply children_present_statement; naive_solver).
    apply preserves_bind; [apply preserves_get|]. intros row.
    apply preserves_bind;
      [destruct row; [apply preserves_ret|apply preserves_throw]|].
    intros target. apply preserves_run. intros d r d' ?.
    eapply stmt_run_view; [|done].
    intros ???; eapply children_present_statement; naive_solver.
  - intros sql d r d'. apply exec_view.
  - intros d r d'. apply Database_close_view.
  - intros file. apply init_view.
Qed.

(** X23. Every stored log has an [activity_id] and a [text], and every
    stored goal has an [activity_id] and a [target_value]: the NOT NULL
    constraints hold after every sequence of [init], [close], entity-method
    calls and transactions on a new Store, given that each database file
    [init] opens satisfies them. *)
Theorem logs_goals_required_present (ops : list operation) (t : tables) :
  Forall (opens_with children_present) ops →
  stored (steps ops constructor) = Some t →
  (∀ k l, logs t !! k = Some l →
          is_Some (l_activity_id l) ∧ is_Some (l_text l))
  ∧ (∀ k g, goals t !! k = Some g →
            is_Some (g_activity_id g) ∧ is_Some (g_target_value g)).
Proof.
  intros Hops Hstored. unfold stored in Hstored.
  destruct (db (steps ops constructor)) as [d|] eqn:Hdb; [|done].
  injection Hstored as <-.
  destruct (steps_children_present ops Hops d Hdb) as [[Hlogs Hgoals] _].
  split; intros k x Hk; [by apply (Hlogs k)|by apply (Hgoals k)].
Qed.

Lemma logs_goals_required_present_witness :
  ∃ t,
    stored (steps sample_history constructor) = Some t
    ∧ (∀ k l, logs t !! k = Some l →
              is_Some (l_activity_id l) ∧ is_Some (l_text l))
    ∧ (∀ k g, goals t !! k = Some g →
              is_Some (g_activity_id g) ∧ is_Some (g_target_value g)).
Proof.
  exists (default empty_tables (stored (steps sample_history constructor))).
  split; [by vm_compute|].
  apply (logs_goals_required_present sample_history); [|by vm_compute].
  apply Forall_cons_2; [by split; apply map_Forall_empty|].
  repeat (apply Forall_cons_2; [exact I|]). apply Forall_nil_2.
Defined.

(** *** Referential integrity *)

Lemma no_orphans_weaken (t t' : tables) :
  (∀ aid, is_Some (activities t !! aid) → is_Some (activities t' !! aid)) →
  logs t' = logs t → goals t' = goals t →
  no_orphans t → no_orphans t'.
Proof.
  intros Hacts Hl Hg [Hlogs Hgoals]. unfold no_orphans. rewrite Hl, Hg.
  split.
  - intros k l Hk. destruct (Hlogs k l Hk) as (aid & ? & ?).
    exists aid. eauto.
  - intros k g Hk. destruct (Hgoals k g Hk) as (aid & ? & ?).
    exists aid. eauto.
Qed.

Lemma is_Some_lookup_insert {A} (m : gmap Z A) (i j : Z) (x : A) :
  is_Some (m !! j) → is_Some (<[i := x]> m !! j).
Proof.
  intros Hj. destruct (decide (i = j)) as [->|Hne].
  - rewrite lookup_insert_eq. eauto.
  - by rewrite lookup_insert_ne.
Qed.

Lemma no_orphans_statement (sql : Sqlite.statement) :
  (∃ a now, sql = Sqlite.insert_activity a now)
  ∨ (∃ a now id, sql = Sqlite.update_activity a now id)
  ∨ (∃ id, sql = Sqlite.delete_activity id)
  ∨ (∃ l now, sql = Sqlite.insert_log l now)
  ∨ (∃ g now, sql = Sqlite.insert_goal g now)
  ∨ (∃ v achieved id, sql = Sqlite.update_goal v achieved id) →
  ∀ t o t', no_orphans t → sql true t = Ok (o, t') → no_orphans t'.
Proof.
  intros Hsql t o t' Hno.
  destruct Hsql as [(a & now & ->)|[(a & now & id & ->)|[(id & ->)|
    [(l & now & ->)|[(g & now & ->)|(v & achieved & id & ->)]]]]].
  - unfold Sqlite.insert_activity.
    destruct (_ || _); intros [= <- <-].
    apply (no_orphans_weaken t); try done. simpl.
    intros aid. apply is_Some_lookup_insert.
  - unfold Sqlite.update_activity.
    destruct (activities t !! id); [|by intros [= <- <-]].
    destruct (_ || _); intros [= <- <-].
    apply (no_orphans_weaken t); try done. simpl.
    intros aid. apply is_Some_lookup_insert.
  - unfold Sqlite.delete_activity.
    destruct (activities t !! id); intros [= <- <-]; [|done].
    destruct Hno as [Hlogs Hgoals]. split; simpl.
    + intros k l Hk. apply map_lookup_filter_Some in Hk as [Hk Hne].
      destruct (Hlogs k l Hk) as (aid & Haid & Hact). exists aid.
      split; [done|]. simpl. rewrite lookup_delete_ne; [done|].
      simpl in Hne. congruence.
    + intros k g Hk. apply map_lookup_filter_Some in Hk as [Hk Hne].
      destruct (Hgoals k g Hk) as (aid & Haid & Hact). exists aid.
      split; [done|]. simpl. rewrite lookup_delete_ne; [done|].
      simpl in Hne. congruence.
  - unfold Sqlite.insert_log.
    destruct (log_activity_id l) as [aid|] eqn:Haid, (text l); try done.
    simpl. destruct (Sqlite.references_activity t aid) eqn:Href; [|done].
    simpl. intros [= <- <-]. destruct Hno as [Hlogs Hgoals].
    split; simpl; [|done].
    apply map_Forall_insert_2; [|done]. exists aid. split; [done|].
    by apply bool_decide_eq_true_1 in Href.
  - unfold Sqlite.insert_goal.
    destruct (goal_activity_id g) as [aid|] eqn:Haid, (target_value g);
      try done.
    simpl. destruct (Sqlite.references_activity t aid) eqn:Href; [|done].
    simpl. intros [= <- <-]. destruct Hno as [Hlogs Hgoals].
    split; simpl; [done|].
    apply map_Forall_insert_2; [|done]. exists aid. split; [done|].
    by apply bool_decide_eq_true_1 in Href.
  - unfold Sqlite.update_goal.
    destruct (goals t !! id) as [old|] eqn:Hold; intros [= <- <-]; [|done].
    destruct Hno as [Hlogs Hgoals]. split; simpl; [done|].
    apply map_Forall_insert_2; [|done].
    destruct (Hgoals id old Hold) as (aid & ? & ?). by exists aid.
Qed.

Lemma stmt_run_owned (sql : Sqlite.statement) (d : Database)
  (r : result error run_result) (d' : Database) :
  (∀ t o t', no_orphans t → sql true t = Ok (o, t') → no_orphans t') →
  db_owned d → stmt_run sql d = (r, d') → db_owned d'.
Proof.
  intros Hsql [Hfk Hview] Hrun. split.
  - unfold enforcing. by rewrite (stmt_run_keeps_foreign_keys _ _ _ _ Hrun).
  - eapply stmt_run_view; [|done..]. unfold enforcing in Hfk.
    by rewrite Hfk.
Qed.

Lemma steps_owned (ops : list operation) :
  Forall (opens_with no_orphans) ops →
  holds db_owned (steps ops constructor).
Proof.
  intros Hops.
  apply (steps_holds db_owned (opens_with no_orphans)); try done.
  - apply perform_holds; intros; try (eapply stmt_run_owned; [|done..]);
      try (eapply no_orphans_statement; naive_solver).
    apply preserves_bind; [apply preserves_get|]. intros row.
    apply preserves_bind;
      [destruct row; [apply preserves_ret|apply preserves_throw]|].
    intros target. apply preserves_run. intros d r d' ??.
    eapply stmt_run_owned; [|done..].
    eapply no_orphans_statement; naive_solver.
  - intros sql d r d' [Hfk Hview] Hexec. split.
    + unfold enforcing. by rewrite (exec_keeps_foreign_keys _ _ _ _ Hexec).
    + by eapply exec_view.
  - intros d r d' [Hfk Hview] Hclose. split.
    + injection Hclose as <- <-. exact Hfk.
    + by eapply Database_close_view.
  - intros file Hfile s r s' Hown. destruct file as [t|].
    + intros [= <- <-] d [= <-].
      split; [reflexivity|]. split; [exact Hfile|done].
    + intros [= <- <-] d Hd. by apply Hown.
Qed.

(** X24. No log and no goal is ever left without its activity: after every
    sequence of [init], [close], entity-method calls and transactions on a
    new Store, each stored log and goal names an activity that is stored,
    given that each database file [init] opens is in that state. Inserts that
    would break this are refused and deletes cascade, also inside
    transactions and across rollbacks. *)
Theorem no_orphans_invariant (ops : list operation) (t : tables) :
  Forall (opens_with no_orphans) ops →
  stored (steps ops constructor) = Some t →
  (∀ k l, logs t !! k = Some l →
          ∃ aid, l_activity_id l = Some aid
                 ∧ is_Some (activities t !! aid))
  ∧ (∀ k g, goals t !! k = Some g →
            ∃ aid, g_activity_id g = Some aid
                   ∧ is_Some (activities t !! aid)).
Proof.
  intros Hops Hstored. unfold stored in Hstored.
  destruct (db (steps ops constructor)) as [d|] eqn:Hdb; [|done].
  injection Hstored as <-.
  destruct (steps_owned ops Hops d Hdb) as (_ & [Hlogs Hgoals] & _).
  split; intros k x Hk; [by apply (Hlogs k)|by apply (Hgoals k)].
Qed.

Lemma no_orphans_invariant_witness :
  ∃ t,
    stored (steps sample_history constructor) = Some t
    ∧ (∀ k l, logs t !! k = Some l →
              ∃ aid, l_activity_id l = Some aid
                     ∧ is_Some (activities t !! aid))
    ∧ (∀ k g, goals t !! k = Some g →
              ∃ aid, g_activity_id g = Some aid
                     ∧ is_Some (activities t !! aid)).
Proof.
  exists (default empty_tables (stored (steps sample_history constructor))).
  split; [by vm_compute|].
  apply (no_orphans_invariant sample_history); [|by vm_compute].
  apply Forall_cons_2; [by split; apply map_Forall_empty|].
  repeat (apply Forall_cons_2; [exact I|]). apply Forall_nil_2.
Defined.

(** *** The derived flag *)

Lemma goals_consistent_statement (sql : Sqlite.statement) :
  (∃ a now, sql = Sqlite.insert_activity a now)
  ∨ (∃ a now id, sql = Sqlite.update_activity a now id)
  ∨ (∃ id, sql = Sqlite.delete_activity id)
  ∨ (∃ l now, sql = Sqlite.insert_log l now)
  ∨ (∃ g now, sql = Sqlite.insert_goal g now) →
  ∀ fk t o t', goals_consistent t → sql fk t = Ok (o, t') →
               goals_consistent t'.
Proof.
  intros Hsql fk t o t' Hgoals.
  destruct Hsql as [(a & now & ->)|[(a & now & id & ->)|[(id & ->)|
    [(l & now & ->)|(g & now & ->)]]]].
  - unfold Sqlite.insert_activity.
    by destruct (_ || _); intros [= <- <-].
  - unfold Sqlite.update_activity.
    destruct (activities t !! id); [|by intros [= <- <-]].
    by destruct (_ || _); intros [= <- <-].
  - unfold Sqlite.delete_activity.
    destruct (activities t !! id); intros [= <- <-]; [|done].
    unfold goals_consistent. simpl.
    destruct fk; [|done]. by apply map_Forall_filter_keeps.
  - unfold Sqlite.insert_log.
    destruct (log_activity_id l), (text l); try done.
    by destruct (fk && _); intros [= <- <-].
  - unfold Sqlite.insert_goal.
    destruct (goal_activity_id g), (target_value g) as [tv|]; try done.
    destruct (fk && _); intros [= <- <-].
    unfold goals_consistent. simpl.
    apply map_Forall_insert_2; [|done].
    intros tv' [= <-] Hpos. simpl.
    by rewrite bool_decide_eq_false_2 by lia.
Qed.

Lemma updateGoalProgress_consistent (goalId v : Z) :
  preserves (holds (in_every_view goals_consistent))
            (updateGoalProgress goalId v).
Proof.
  intros s r s' Hview.
  destruct (connection_error s) as [e|] eqn:He.
  { unfold updateGoalProgress, bind. rewrite (get_unusable _ s e He).
    intros [= <- <-] d Hd. by apply Hview. }
  destruct (connection_usable s He) as (d & Hdb & Hopen).
  destruct (goals (data d) !! goalId) as [g|] eqn:Hg.
  - rewrite (updateGoalProgress_open s d goalId v g Hdb Hopen Hg).
    intros [= <- <-] d' [= <-].
    destruct (Hview d Hdb) as [Hdata Hsaved]. split; [|done].
    unfold goals_consistent. simpl.
    apply map_Forall_insert_2; [|done].
    intros tv Htv Hpos. simpl in *. rewrite Htv. reflexivity.
  - unfold updateGoalProgress, bind. rewrite (get_open s d Hdb Hopen).
    unfold Sqlite.select_target_value. rewrite Hg. simpl.
    by intros [= <- <-].
Qed.

Lemma steps_goals_consistent (ops : list operation) :
  Forall (opens_with goals_consistent) ops →
  holds (in_every_view goals_consistent) (steps ops constructor).
Proof.
  intros Hops.
  apply (steps_holds (in_every_view goals_consistent)
           (opens_with goals_consistent)); try done.
  - apply perform_holds; intros;
      try apply updateGoalProgress_consistent;
      (eapply stmt_run_view; [|done..]);
      intros ???; eapply goals_consistent_statement; naive_solver.
  - intros sql d r d'. apply exec_view.
  - intros d r d'. apply Database_close_view.
  - intros file. apply init_view.
Qed.

(** X25. For every stored goal with a positive target, [achieved] is 1
    exactly when [current_value] has reached the target: this holds after
    every sequence of [init], [close], entity-method calls and transactions
    on a new Store, given that each database file [init] opens satisfies it.
    A goal created with a target of 0 or less is outside it: its initial
    value meets the target while its flag is 0, until the first progress
    update. *)
Theorem achieved_invariant
  (ops : list operation) (t : tables) (k tv : Z) (g : goal_row) :
  Forall (opens_with goals_consistent) ops →
  stored (steps ops constructor) = Some t →
  goals t !! k = Some g → g_target_value g = Some tv → 0 < tv →
  g_achieved g = as_integer (bool_decide (tv ≤ g_current_value g))
  ∧ (g_achieved g = 1 ↔ tv ≤ g_current_value g).
Proof.
  intros Hops Hstored Hk Htv Hpos. unfold stored in Hstored.
  destruct (db (steps ops constructor)) as [d|] eqn:Hdb; [|done].
  injection Hstored as <-.
  destruct (steps_goals_consistent ops Hops d Hdb) as [Hgoals _].
  pose proof (Hgoals k g Hk tv Htv Hpos) as Hach.
  split; [done|]. rewrite Hach. unfold as_integer.
  case_bool_decide; naive_solver.
Qed.

Lemma achieved_invariant_witness :
  g_achieved {| g_activity_id := Some 1; g_target_value := Some 10;
                g_current_value := 12; g_target_date := None;
                g_achieved := 1; g_created_at := 102 |}
  = as_integer (bool_decide (10 ≤ 12))
  ∧ (1 = 1 ↔ 10 ≤ 12).
Proof.
  apply (achieved_invariant sample_history
           (default empty_tables (stored (steps sample_history constructor)))
           1 10
           {| g_activity_id := Some 1; g_target_value := Some 10;
              g_current_value := 12; g_target_date := None;
              g_achieved := 1; g_created_at := 102 |});
    [|by vm_compute..].
  apply Forall_cons_2; [apply map_Forall_empty|].
  repeat (apply Forall_cons_2; [exact I|]). apply Forall_nil_2.
Defined.

Lemma steps_enforcing_witness :
  ∃ d, db (steps sample_history constructor) = Some d
       ∧ foreign_keys d = true.
Proof.
  exists (default sample_db (db (steps sample_history constructor))).
  split; [by vm_compute|].
  apply (steps_enforcing sample_history). by vm_compute.
Defined.
